(** * LAPD crime analysis: a shallow embedding of [main.py]

    The script loads one table ([crimes]) and runs three tasks over it:
    the peak crime hour, the patrol area with most night crimes and the
    distribution of victims over seven age groups.  Every pandas call
    the tasks make is embedded as a function over lists; the table is a
    state that the first task extends with the derived column
    ['HOUR OCC'].  Plotting, printing and file output are left out.

    Conventions of the embedding:
    - a cell that pandas reads as NaN (an empty CSV field) is [None];
    - a string is a sequence of characters with code points below 256;
    - a Series indexed by labels is a list of (label, value) pairs in
      the order pandas holds them;
    - an exception is a value [inl e] of the error monad [result]. *)

From Stdlib Require Import ZArith List String Ascii Bool Arith Lia.
From Stdlib Require Import QArith Permutation Sorted.
Import ListNotations.

Local Open Scope string_scope.
Local Open Scope list_scope.
Local Open Scope nat_scope.

Local Abbreviation length := List.length.

(** ** Exceptions *)

Inductive pyerr : Type :=
| ValueError
| KeyError.

Definition result (A : Type) : Type := (pyerr + A)%type.

Definition raise {A : Type} (e : pyerr) : result A := inl e.
Definition ok {A : Type} (a : A) : result A := inr a.

Definition bind {A B : Type} (m : result A) (k : A -> result B) : result B :=
  match m with
  | inl e => inl e
  | inr a => k a
  end.


(** Element-wise conversion of a column: the first failure aborts the
    whole conversion, no partial column is produced. *)
Fixpoint traverse {A B : Type} (f : A -> result B) (l : list A)
  : result (list B) :=
  match l with
  | [] => ok []
  | x :: t =>
      bind (f x) (fun y => bind (traverse f t) (fun ys => ok (y :: ys)))
  end.

(** ** The table *)

(** One row of [data/crimes.csv], with the three columns the tasks
    read.  ['TIME OCC'] is loaded with [dtype=str]. *)
Record row : Type := mkRow {
  TIME_OCC : option string;
  AREA_NAME : option string;
  Vict_Age : option Z
}.

(** The DataFrame [crimes]: the loaded rows and the column ['HOUR OCC']
    that line 34 assigns; [None] while the column does not exist. *)
Record DataFrame : Type := mkDF {
  rows : list row;
  HOUR_OCC : option (list Z)
}.

Definition read_csv (rs : list row) : DataFrame := mkDF rs None.

(** ** Strings: [str.zfill], [str[:2]], [int] *)

Fixpoint zeros (n : nat) : string :=
  match n with
  | O => EmptyString
  | S k => String "0" (zeros k)
  end.

Definition is_sign (c : ascii) : bool :=
  Ascii.eqb c "+" || Ascii.eqb c "-".

(** Python's [str.zfill]: a string of [width] characters or more is
    returned as it is; the zeros go after a leading sign. *)
Definition zfill (width : nat) (s : string) : string :=
  let n := String.length s in
  if width <=? n then s
  else match s with
       | String c rest =>
           if is_sign c then String c (zeros (width - n) ++ rest)
           else zeros (width - n) ++ s
       | EmptyString => zeros (width - n)
       end.

(** [s[:n]] *)
Definition slice_to (n : nat) (s : string) : string := substring 0 n s.

(** Characters that [str.isspace] accepts, below code point 256. *)
Definition is_space (c : ascii) : bool :=
  let n := nat_of_ascii c in
  ((9 <=? n) && (n <=? 13)) || ((28 <=? n) && (n <=? 32))
  || (n =? 133) || (n =? 160).

Definition digit_of (c : ascii) : option Z :=
  let n := nat_of_ascii c in
  if (48 <=? n) && (n <=? 57) then Some (Z.of_nat (n - 48)) else None.

Fixpoint lstrip (s : string) : string :=
  match s with
  | EmptyString => EmptyString
  | String c r => if is_space c then lstrip r else s
  end.

Fixpoint rstrip (s : string) : string :=
  match s with
  | EmptyString => EmptyString
  | String c r =>
      match rstrip r with
      | EmptyString => if is_space c then EmptyString else String c EmptyString
      | r' => String c r'
      end
  end.

Definition strip (s : string) : string := rstrip (lstrip s).

(** The digits after the first one; a single underscore may stand
    between two digits. *)
Fixpoint int_digits (acc : Z) (s : string) : option Z :=
  match s with
  | EmptyString => Some acc
  | String c r =>
      match digit_of c with
      | Some d => int_digits (10 * acc + d) r
      | None =>
          if Ascii.eqb c "_" then
            match r with
            | String c' r' =>
                match digit_of c' with
                | Some d => int_digits (10 * acc + d) r'
                | None => None
                end
            | EmptyString => None
            end
          else None
      end
  end.

Definition int_unsigned (s : string) : option Z :=
  match s with
  | EmptyString => None
  | String c r =>
      match digit_of c with
      | Some d => int_digits d r
      | None => None
      end
  end.

(** Python's [int(s)] in base 10: surrounding white space, an optional
    sign, then digits.  Anything else raises [ValueError]. *)
Definition py_int (s : string) : result Z :=
  match strip s with
  | EmptyString => raise ValueError
  | String c r =>
      let parsed :=
        if Ascii.eqb c "-" then option_map Z.opp (int_unsigned r)
        else if Ascii.eqb c "+" then int_unsigned r
        else int_unsigned (String c r) in
      match parsed with
      | Some z => ok z
      | None => raise ValueError
      end
  end.

(** ** Column operations of line 34 *)

Definition str_zfill (width : nat) (col : list (option string))
  : list (option string) :=
  map (option_map (zfill width)) col.

Definition str_slice_to (n : nat) (col : list (option string))
  : list (option string) :=
  map (option_map (slice_to n)) col.

(** [astype(int)] of one cell: NaN cannot be converted. *)
Definition int_of_cell (c : option string) : result Z :=
  match c with
  | None => raise ValueError
  | Some s => py_int s
  end.

Definition astype_int (col : list (option string)) : result (list Z) :=
  traverse int_of_cell col.

(** [crimes['TIME OCC'].str.zfill(4).str[:2].astype(int)] *)
Definition hour_column (rs : list row) : result (list Z) :=
  astype_int (str_slice_to 2 (str_zfill 4 (map TIME_OCC rs))).

(** The hour one cell of ['TIME OCC'] yields. *)
Definition hour_of (t : option string) : result Z :=
  int_of_cell (option_map (slice_to 2) (option_map (zfill 4) t)).

(** ** Series: counting, sorting, arg-max *)

Definition dropna {A : Type} (col : list (option A)) : list A :=
  flat_map (fun c => match c with Some a => [a] | None => [] end) col.

Section Series.

Context {K : Type}.
Variable K_eq_dec : forall x y : K, {x = y} + {x <> y}.

(** One step of the counting pass: the table of counters keeps its
    keys in the order in which they were first met. *)
Fixpoint incr (k : K) (acc : list (K * nat)) : list (K * nat) :=
  match acc with
  | [] => [(k, 1)]
  | (k', c) :: t =>
      if K_eq_dec k k' then (k', S c) :: t else (k', c) :: incr k t
  end.

Definition count_pass (l : list K) : list (K * nat) :=
  fold_left (fun acc k => incr k acc) l [].

(** [sort_values(ascending=False)], which [value_counts] applies to the
    counters.  pandas leaves the sort to NumPy; the embedding takes the
    sort that keeps entries with equal counts in their relative order,
    as the insertion sort NumPy runs on short arrays does. *)
Fixpoint insert_desc (x : K * nat) (s : list (K * nat))
  : list (K * nat) :=
  match s with
  | [] => [x]
  | y :: t => if snd y <=? snd x then x :: s else y :: insert_desc x t
  end.

Definition sort_values_desc (s : list (K * nat)) : list (K * nat) :=
  fold_right insert_desc [] s.

(** [Series.value_counts()] of a column without NaN. *)
Definition value_counts (l : list K) : list (K * nat) :=
  sort_values_desc (count_pass l).

(** [value_counts()] of a categorical column: every category has an
    entry, also the unobserved ones. *)
Definition categorical_value_counts (categories : list K)
    (col : list (option K)) : list (K * nat) :=
  sort_values_desc
    (map (fun c => (c, count_occ K_eq_dec (dropna col) c)) categories).

(** [Series.idxmax()]: the label of the first entry that holds the
    maximum; an empty Series has no arg-max. *)
Fixpoint idxmax_from (best : K * nat) (s : list (K * nat)) : K :=
  match s with
  | [] => fst best
  | y :: t =>
      if snd best <? snd y then idxmax_from y t else idxmax_from best t
  end.

Definition idxmax (s : list (K * nat)) : result K :=
  match s with
  | [] => raise ValueError
  | x :: t => ok (idxmax_from x t)
  end.

(** [s[k]] where the label exists. *)
Fixpoint lookup (k : K) (s : list (K * nat)) : option nat :=
  match s with
  | [] => None
  | (k', c) :: t => if K_eq_dec k k' then Some c else lookup k t
  end.

(** [s.reindex(labels, fill_value=fill)] *)
Definition reindex (labels : list K) (fill : nat) (s : list (K * nat))
  : list (K * nat) :=
  map (fun l => (l, match lookup l s with Some c => c | None => fill end))
      labels.

Definition series_sum (s : list (K * nat)) : nat := list_sum (map snd s).

End Series.

(** [sort_index()] of a Series with integer labels. *)
Fixpoint insert_by_index (x : Z * nat) (s : list (Z * nat))
  : list (Z * nat) :=
  match s with
  | [] => [x]
  | y :: t =>
      if (fst x <=? fst y)%Z then x :: s else y :: insert_by_index x t
  end.

Definition sort_index (s : list (Z * nat)) : list (Z * nat) :=
  fold_right insert_by_index [] s.

(** ** Task 1: peak crime hour (lines 34-40) *)

Definition hour_counts (hours : list Z) : list (Z * nat) :=
  sort_index (value_counts Z.eq_dec hours).

Definition peak_crime_hour (hours : list Z) : result Z :=
  idxmax (hour_counts hours).

(** ** Task 2: peak night crime location (lines 73-80) *)

Definition night_hours : list Z := [22; 23; 0; 1; 2; 3]%Z.

Definition isin (values : list Z) (col : list Z) : list bool :=
  map (fun h => existsb (Z.eqb h) values) col.

(** [df[mask]]: the rows at which the boolean mask is true. *)
Fixpoint mask_select {A : Type} (l : list A) (mask : list bool) : list A :=
  match l, mask with
  | x :: t, b :: m => if b then x :: mask_select t m else mask_select t m
  | _, _ => []
  end.

Definition night_crimes (rs : list row) (hours : list Z) : list row :=
  mask_select rs (isin night_hours hours).

Definition night_crime_by_area (night : list row) : list (string * nat) :=
  value_counts string_dec (dropna (map AREA_NAME night)).

Definition peak_night_crime_location (night : list row) : result string :=
  idxmax (night_crime_by_area night).

(** ** Task 3: victim age groups (lines 113-120, 157) *)

(** A bin edge: a number or [np.inf]. *)
Inductive edge : Type :=
| Finite (z : Z)
| Infinity.

Definition age_bins : list edge :=
  [Finite 0; Finite 17; Finite 25; Finite 34; Finite 44; Finite 54;
   Finite 64; Infinity].

Definition age_labels : list string :=
  ["0-17"; "18-25"; "26-34"; "35-44"; "45-54"; "55-64"; "65+"].

Definition edge_below (e : edge) (x : Z) : bool :=
  match e with
  | Finite z => (z <? x)%Z
  | Infinity => false
  end.

(** [bins.searchsorted(x, side='left')] over increasing edges: the
    position of the first edge that is not below [x]. *)
Fixpoint searchsorted_left (bins : list edge) (x : Z) : nat :=
  match bins with
  | [] => 0
  | e :: t => if edge_below e x then S (searchsorted_left t x) else 0
  end.

(** [pd.cut(..., right=True)] of one cell; [include_lowest] keeps its
    default [False].  A value at or below the first edge, above the last
    one, or NaN, gets no label. *)
Definition cut_cell (bins : list edge) (labels : list string)
    (x : option Z) : option string :=
  match x with
  | None => None
  | Some a =>
      let i := searchsorted_left bins a in
      if (i =? 0) || (i =? length bins) then None
      else nth_error labels (i - 1)
  end.

Definition cut (col : list (option Z)) (bins : list edge)
    (labels : list string) : list (option string) :=
  map (cut_cell bins labels) col.

Definition age_groups (rs : list row) : list (option string) :=
  cut (map Vict_Age rs) age_bins age_labels.

Definition victim_ages (rs : list row) : list (string * nat) :=
  reindex string_dec age_labels 0
    (categorical_value_counts string_dec age_labels (age_groups rs)).

(** Line 157, with the division taken over the rationals. *)
Definition percentage (count total : nat) : Q :=
  if 0 <? total
  then (inject_Z (Z.of_nat count) / inject_Z (Z.of_nat total)) * 100
  else 0.

Definition percentages (ages : list (string * nat)) : list (string * Q) :=
  map (fun e => (fst e, percentage (snd e) (series_sum ages))) ages.

(** ** The script as a sequence of tasks over the shared table *)

(** A task reads and updates [crimes]; an exception leaves the table as
    it was when the exception was raised. *)
Definition task (A : Type) : Type := DataFrame -> result A * DataFrame.

Definition ret {A : Type} (a : A) : task A := fun df => (ok a, df).

Definition lift {A : Type} (r : result A) : task A := fun df => (r, df).

Definition seq {A B : Type} (m : task A) (k : A -> task B) : task B :=
  fun df =>
    match m df with
    | (inl e, df') => (inl e, df')
    | (inr a, df') => k a df'
    end.

Notation "x <- m ;; k" := (seq m (fun x => k))
  (at level 61, m at next level, right associativity).

Definition get_rows : task (list row) := fun df => (ok (rows df), df).

(** [crimes['HOUR OCC']] *)
Definition get_HOUR_OCC : task (list Z) :=
  fun df =>
    match HOUR_OCC df with
    | Some col => (ok col, df)
    | None => (raise KeyError, df)
    end.

(** [crimes['HOUR OCC'] = col] *)
Definition set_HOUR_OCC (col : list Z) : task unit :=
  fun df => (ok tt, mkDF (rows df) (Some col)).

Definition task1 : task (list (Z * nat) * Z) :=
  rs <- get_rows ;;
  col <- lift (hour_column rs) ;;
  _ <- set_HOUR_OCC col ;;
  hours <- get_HOUR_OCC ;;
  peak <- lift (peak_crime_hour hours) ;;
  ret (hour_counts hours, peak).

Definition task2 : task (list (string * nat) * string) :=
  rs <- get_rows ;;
  hours <- get_HOUR_OCC ;;
  let night := night_crimes rs hours in
  peak <- lift (peak_night_crime_location night) ;;
  ret (night_crime_by_area night, peak).

Definition task3 : task (list (string * nat) * list (string * Q)) :=
  rs <- get_rows ;;
  let ages := victim_ages rs in
  ret (ages, percentages ages).


(** ** Vocabulary of the statements *)

Definition keys {K : Type} (s : list (K * nat)) : list K := map fst s.

(** The keys of [l] in the order of their first occurrence, those of
    [seen] left out. *)
Fixpoint first_seen {K : Type}
    (K_eq_dec : forall x y : K, {x = y} + {x <> y})
    (seen l : list K) : list K :=
  match l with
  | [] => []
  | x :: t =>
      if in_dec K_eq_dec x seen then first_seen K_eq_dec seen t
      else x :: first_seen K_eq_dec (seen ++ [x]) t
  end.

Definition by_count_desc {K : Type} (x y : K * nat) : Prop := snd y <= snd x.

Definition by_index (x y : Z * nat) : Prop := (fst x <= fst y)%Z.

(** The count a Series holds for a label, 0 where the label is absent. *)
Definition count_of {K : Type}
    (K_eq_dec : forall x y : K, {x = y} + {x <> y})
    (k : K) (s : list (K * nat)) : nat :=
  match lookup K_eq_dec k s with
  | Some c => c
  | None => 0
  end.

(** The night window, 22:00 through 03:59, as two ranges of hours. *)
Definition in_night_window (h : Z) : bool :=
  (((22 <=? h) && (h <=? 23)) || ((0 <=? h) && (h <=? 3)))%Z.

(** An age the data model calls invalid: missing or not positive. *)
Definition invalid_age (r : row) : bool :=
  match Vict_Age r with
  | None => true
  | Some a => (a <=? 0)%Z
  end.



(** The number a string of decimal digits denotes. *)
Fixpoint decimal_from (acc : Z) (s : string) : option Z :=
  match s with
  | EmptyString => Some acc
  | String c r =>
      match digit_of c with
      | Some d => decimal_from (10 * acc + d) r
      | None => None
      end
  end.

Definition decimal (s : string) : option Z := decimal_from 0 s.

(** Whether the age of a record falls in the bracket labelled [l]. *)
Definition in_bracket (l : string) (r : row) : bool :=
  match cut_cell age_bins age_labels (Vict_Age r) with
  | Some l' => String.eqb l' l
  | None => false
  end.

(** ** Plots and report (lines 43-66, 83-106, 162-165) *)

(** The steps below also raise [IndexError]. *)
Inductive pyexc : Type :=
| Raised (e : pyerr)
| IndexError.

(** A bar of a chart: its position, its length and its face colour. *)
Record bar : Type := mkBar {
  bar_pos : Z;
  bar_len : nat;
  facecolor : string
}.

(** [plt.bar(x, height, color=c)]: one bar per entry, in order. *)
Definition plt_bar (x : list Z) (height : list nat) (c : string)
  : list bar :=
  map (fun p => mkBar (fst p) (snd p) c) (combine x height).

(** [plt.barh(y, width, color=colors)] *)
Definition plt_barh (y : list nat) (width : list nat) (colors : list string)
  : list bar :=
  map (fun p => mkBar (Z.of_nat (fst (fst p))) (snd (fst p)) (snd p))
      (combine (combine y width) colors).

(** The position [t[i]] reads in a tuple of [n] items: a negative index
    counts from the end, an index out of range raises [IndexError]. *)
Definition tuple_index (n : nat) (i : Z) : option nat :=
  if (0 <=? i)%Z then
    if (i <? Z.of_nat n)%Z then Some (Z.to_nat i) else None
  else
    if (0 <=? Z.of_nat n + i)%Z then Some (Z.to_nat (Z.of_nat n + i))
    else None.

(** [bars[i].set_facecolor(c)], the position being resolved already. *)
Fixpoint set_facecolor (i : nat) (c : string) (bars : list bar) : list bar :=
  match bars, i with
  | [], _ => []
  | b :: t, O => mkBar (bar_pos b) (bar_len b) c :: t
  | b :: t, S j => b :: set_facecolor j c t
  end.

(** [s[label]] on a Series: a label that is absent raises [KeyError]. *)
Definition series_getitem {K : Type}
    (K_eq_dec : forall x y : K, {x = y} + {x <> y})
    (label : K) (s : list (K * nat)) : result nat :=
  match lookup K_eq_dec label s with
  | Some c => ok c
  | None => raise KeyError
  end.

(** [s.max()]; NaN, here [None], on an empty Series. *)
Definition series_max {K : Type} (s : list (K * nat)) : option nat :=
  match s with
  | [] => None
  | x :: t => Some (fold_left Nat.max (map snd t) (snd x))
  end.

(** [s.head(n)] *)
Definition head {K : Type} (n : nat) (s : list (K * nat)) : list (K * nat) :=
  firstn n s.

(** [l.index(x)]: the first position of [x], [ValueError] without one. *)
Fixpoint list_index {K : Type}
    (K_eq_dec : forall x y : K, {x = y} + {x <> y})
    (x : K) (l : list K) : result nat :=
  match l with
  | [] => raise ValueError
  | y :: t =>
      if K_eq_dec y x then ok 0
      else bind (list_index K_eq_dec x t) (fun i => ok (S i))
  end.

(** Lines 44-58: the bars of the hourly chart with the bar at position
    [peak] turned red, and the count the annotation shows. *)
Definition plot_peak_crime_hour (counts : list (Z * nat)) (peak : Z)
  : pyexc + (list bar * nat) :=
  let bars := plt_bar (keys counts) (map snd counts) "skyblue" in
  match tuple_index (length bars) peak with
  | None => inl IndexError
  | Some i =>
      match series_getitem Z.eq_dec peak counts with
      | inl e => inl (Raised e)
      | inr c => inr (set_facecolor i "red" bars, c)
      end
  end.

Definition top_night_areas (by_area : list (string * nat))
  : list (string * nat) :=
  head 10 by_area.

(** Line 85 *)
Definition colors (top : list (string * nat)) (peak : string) : list string :=
  map (fun area => if string_dec area peak then "red" else "salmon")
      (keys top).

(** Lines 84-99: the bars of the night chart, the position [peak_idx] of
    the label and the count shown beside it. *)
Definition plot_peak_night_location (by_area : list (string * nat))
    (peak : string) : pyexc + (list bar * nat * nat) :=
  let top := top_night_areas by_area in
  let bars := plt_barh (List.seq 0 (length top)) (map snd top) (colors top peak) in
  match list_index string_dec peak (keys top) with
  | inl e => inl (Raised e)
  | inr peak_idx =>
      match series_getitem string_dec peak top with
      | inl e => inl (Raised e)
      | inr c => inr (bars, peak_idx, c)
      end
  end.

(** A cell of the column ["Value"] of the summary. *)
Inductive value : Type :=
| IntValue (z : Z)
| StrValue (s : string).

(** Lines 162-165 *)
Definition results_summary (peak_hour : Z) (peak_location : string)
    (crimes : DataFrame) : list (string * value) :=
  [("Peak Crime Hour", IntValue peak_hour);
   ("Peak Night Crime Location", StrValue peak_location);
   ("Total Crimes Analyzed", IntValue (Z.of_nat (length (rows crimes))))].

(** A step of the script with its plots. *)
Definition step (A : Type) : Type := DataFrame -> (pyexc + A) * DataFrame.

Definition of_task {A : Type} (t : task A) : step A :=
  fun df =>
    match t df with
    | (inl e, df') => (inl (Raised e), df')
    | (inr a, df') => (inr a, df')
    end.

Definition of_plot {A : Type} (r : pyexc + A) : step A := fun df => (r, df).

Definition and_then {A B : Type} (m : step A) (k : A -> step B) : step B :=
  fun df =>
    match m df with
    | (inl e, df') => (inl e, df')
    | (inr a, df') => k a df'
    end.

Notation "x <~ m ;; k" := (and_then m (fun x => k))
  (at level 61, m at next level, right associativity).

(** The script from line 34 on: the hourly and the night task, each
    followed by the steps of its chart that can raise, the age task, and
    the summary table.  The prints, the drawing calls that only style a
    chart and the files written are left out. *)
Definition script : step (list (string * value)) :=
  hourly <~ of_task task1 ;;
  _ <~ of_plot (plot_peak_crime_hour (fst hourly) (snd hourly)) ;;
  night <~ of_task task2 ;;
  _ <~ of_plot (plot_peak_night_location (fst night) (snd night)) ;;
  _ <~ of_task task3 ;;
  (fun df => (inr (results_summary (snd hourly) (snd night) df), df)).

(** ** Tactics *)

(** Settles the integer comparisons of a goal from its hypotheses. *)
Ltac decide_cmp :=
  repeat match goal with
    | |- context [(?x <? ?y)%Z] =>
        first [ replace (x <? y)%Z with true
                  by (symmetry; apply Z.ltb_lt; lia)
              | replace (x <? y)%Z with false
                  by (symmetry; apply Z.ltb_ge; lia) ]
    | |- context [(?x <=? ?y)%Z] =>
        first [ replace (x <=? y)%Z with true
                  by (symmetry; apply Z.leb_le; lia)
              | replace (x <=? y)%Z with false
                  by (symmetry; apply Z.leb_gt; lia) ]
    end.

(** Replaces [v] by [e] from a hypothesis [Some e = Some v]. *)
Ltac value_of H :=
  match type of H with
  | Some ?e = Some ?v =>
      let E := fresh "E" in
      assert (E : v = e) by congruence; rewrite E; clear E H
  end.

(** The same, rewriting in the hypothesis itself. *)
Ltac value_of_in H :=
  match type of H with
  | Some ?e = Some ?v =>
      let E := fresh "E" in
      assert (E : v = e) by congruence; clear H; rename E into H
  end.

(** * Properties *)

(** ** The error monad *)

Lemma traverse_ok_length {A B : Type} (f : A -> result B) (l : list A) ys :
  traverse f l = inr ys -> length ys = length l.
Proof.
  revert ys; induction l as [|x t IH]; simpl; intros ys H.
  - inversion H; reflexivity.
  - destruct (f x) as [e|y]; simpl in H; [discriminate|].
    destruct (traverse f t) as [e|ys']; simpl in H; [discriminate|].
    inversion H; subst; simpl; f_equal; auto.
Qed.


Lemma traverse_ok_map {A B : Type} (f : A -> result B) (l : list A) ys :
  traverse f l = inr ys -> map f l = map inr ys.
Proof.
  revert ys; induction l as [|x t IH]; simpl; intros ys H.
  - inversion H; reflexivity.
  - destruct (f x) as [e|y]; simpl in H; [discriminate|].
    destruct (traverse f t) as [e|ys']; simpl in H; [discriminate|].
    inversion H; subst; simpl; f_equal; auto.
Qed.

(** ** Counting pass *)

Section SeriesFacts.

Context {K : Type}.
Variable K_eq_dec : forall x y : K, {x = y} + {x <> y}.

Lemma count_of_incr k k' acc :
  count_of K_eq_dec k' (incr K_eq_dec k acc)
  = count_of K_eq_dec k' acc + (if K_eq_dec k k' then 1 else 0).
Proof.
  unfold count_of.
  induction acc as [|[k0 c0] t IH]; simpl.
  - destruct (K_eq_dec k' k), (K_eq_dec k k'); subst; congruence.
  - destruct (K_eq_dec k k0) as [E|N]; simpl.
    + subst k0. destruct (K_eq_dec k' k), (K_eq_dec k k'); subst;
        try congruence; lia.
    + destruct (K_eq_dec k' k0) as [E'|N'].
      * subst k0. destruct (K_eq_dec k k'); [congruence|lia].
      * exact IH.
Qed.

Lemma keys_incr k acc :
  keys (incr K_eq_dec k acc)
  = if in_dec K_eq_dec k (keys acc) then keys acc else keys acc ++ [k].
Proof.
  induction acc as [|[k0 c0] t IH]; simpl.
  - reflexivity.
  - destruct (K_eq_dec k k0) as [E|N]; simpl.
    + subst. destruct (K_eq_dec k0 k0); [reflexivity|congruence].
    + destruct (K_eq_dec k0 k) as [E'|N']; [congruence|].
      rewrite IH.
      destruct (in_dec K_eq_dec k (keys t)); reflexivity.
Qed.

Lemma positive_incr k acc :
  Forall (fun e => 0 < snd e) acc ->
  Forall (fun e => 0 < snd e) (incr K_eq_dec k acc).
Proof.
  induction acc as [|[k0 c0] t IH]; simpl; intro H.
  - repeat constructor.
  - inversion H; subst; simpl in *.
    destruct (K_eq_dec k k0); constructor; simpl; auto; lia.
Qed.

Lemma keys_fold_incr l acc :
  keys (fold_left (fun a k => incr K_eq_dec k a) l acc)
  = keys acc ++ first_seen K_eq_dec (keys acc) l.
Proof.
  revert acc; induction l as [|x t IH]; intro acc; simpl.
  - now rewrite app_nil_r.
  - rewrite IH, keys_incr.
    destruct (in_dec K_eq_dec x (keys acc)); [reflexivity|].
    now rewrite <- app_assoc.
Qed.

Lemma count_of_fold_incr k l acc :
  count_of K_eq_dec k (fold_left (fun a k => incr K_eq_dec k a) l acc)
  = count_of K_eq_dec k acc + count_occ K_eq_dec l k.
Proof.
  revert acc; induction l as [|x t IH]; intro acc; simpl.
  - lia.
  - rewrite IH, count_of_incr. destruct (K_eq_dec x k); lia.
Qed.

Lemma positive_fold_incr l acc :
  Forall (fun e => 0 < snd e) acc ->
  Forall (fun e => 0 < snd e)
         (fold_left (fun a k => incr K_eq_dec k a) l acc).
Proof.
  revert acc; induction l as [|x t IH]; intros acc H; simpl; auto.
  apply IH, positive_incr, H.
Qed.

Lemma first_seen_fresh seen l x :
  In x (first_seen K_eq_dec seen l) -> ~ In x seen.
Proof.
  revert seen; induction l as [|y t IH]; intros seen; simpl; [tauto|].
  destruct (in_dec K_eq_dec y seen) as [i|n]; simpl.
  - apply IH.
  - intros [E|H]; [now subst|].
    apply IH in H. intro Hs; apply H, in_or_app; now left.
Qed.

Lemma first_seen_NoDup seen l : NoDup (first_seen K_eq_dec seen l).
Proof.
  revert seen; induction l as [|y t IH]; intros seen; simpl.
  - constructor.
  - destruct (in_dec K_eq_dec y seen); [apply IH|].
    constructor; [|apply IH].
    intro H; apply first_seen_fresh in H.
    apply H, in_or_app; right; now left.
Qed.

Lemma first_seen_In seen l x :
  In x (first_seen K_eq_dec seen l) <-> In x l /\ ~ In x seen.
Proof.
  revert seen; induction l as [|y t IH]; intros seen; simpl; [tauto|].
  destruct (in_dec K_eq_dec y seen) as [i|n]; simpl.
  - rewrite IH. split; [tauto|].
    intros [[E|H] Hn]; [subst; contradiction|tauto].
  - rewrite IH. split.
    + intros [E|[H Hn]]; [subst; tauto|].
      split; [tauto|]. intro; apply Hn, in_or_app; now left.
    + intros [[E|H] Hn]; [now left|].
      destruct (K_eq_dec y x) as [E|N]; [now left|right].
      split; [assumption|].
      intro H'; apply in_app_or in H'. destruct H' as [H'|[H'|[]]]; tauto.
Qed.

(** Every key met before the first occurrence of [a] stands before [a]
    in the list of first occurrences. *)
Lemma first_seen_split l : forall seen k1 a k2,
  first_seen K_eq_dec seen l = k1 ++ a :: k2 ->
  exists l1 l2,
    l = l1 ++ a :: l2 /\ ~ In a l1 /\ ~ In a seen /\
    forall b, In b l1 -> In b seen \/ In b k1.
Proof.
  induction l as [|x t IH]; intros seen k1 a k2; simpl.
  - destruct k1; discriminate.
  - destruct (in_dec K_eq_dec x seen) as [i|n].
    + intro H. destruct (IH _ _ _ _ H) as (l1 & l2 & E & Hn & Hs & Hb).
      exists (x :: l1), l2. subst t. repeat split; auto.
      * intros [E|H']; [subst; contradiction|contradiction].
      * intros b [E|H']; [subst; now left|auto].
    + destruct k1 as [|y k1']; simpl; intro H; inversion H; subst.
      * exists [], t. repeat split; auto; intros ? [].
      * destruct (IH _ _ _ _ H2) as (l1 & l2 & E & Hn & Hs & Hb).
        exists (y :: l1), l2. subst t.
        assert (a <> y) by (intro; subst; apply Hs, in_or_app; right; now left).
        repeat split; auto.
        -- intros [E|H']; [congruence|contradiction].
        -- intro; apply Hs, in_or_app; now left.
        -- intros b [E|H']; [subst; right; now left|].
           destruct (Hb _ H') as [Hb'|Hb']; [|right; now right].
           apply in_app_or in Hb'. destruct Hb' as [?|[?|[]]];
             [now left|subst; right; now left].
Qed.

Lemma lookup_In k c s : lookup K_eq_dec k s = Some c -> In (k, c) s.
Proof.
  induction s as [|[k0 c0] t IH]; simpl; [discriminate|].
  destruct (K_eq_dec k k0); intro H.
  - inversion H; subst; now left.
  - right; auto.
Qed.

Lemma In_lookup k c s :
  NoDup (keys s) -> In (k, c) s -> lookup K_eq_dec k s = Some c.
Proof.
  induction s as [|[k0 c0] t IH]; simpl; intros Hnd H; [contradiction|].
  inversion Hnd; subst.
  destruct H as [E|H].
  - inversion E; subst. destruct (K_eq_dec k k); congruence.
  - destruct (K_eq_dec k k0) as [E|N]; [|auto].
    subst k0. exfalso. apply H2. change k with (fst (k, c)).
    now apply in_map.
Qed.

Lemma lookup_None k s : lookup K_eq_dec k s = None <-> ~ In k (keys s).
Proof.
  induction s as [|[k0 c0] t IH]; simpl; [tauto|].
  destruct (K_eq_dec k k0) as [E|N].
  - subst. split; [discriminate|tauto].
  - rewrite IH. split; [intros H [E|H']; congruence || tauto|tauto].
Qed.

Lemma count_pass_NoDup l : NoDup (keys (count_pass K_eq_dec l)).
Proof.
  unfold count_pass. rewrite keys_fold_incr. simpl. apply first_seen_NoDup.
Qed.

Lemma count_pass_keys l :
  keys (count_pass K_eq_dec l) = first_seen K_eq_dec [] l.
Proof. unfold count_pass. now rewrite keys_fold_incr. Qed.

(** The counting pass has one entry per distinct key, holding its
    number of occurrences. *)
Lemma count_pass_spec l k c :
  In (k, c) (count_pass K_eq_dec l)
  <-> 0 < c /\ c = count_occ K_eq_dec l k.
Proof.
  split.
  - intro H.
    assert (P : Forall (fun e => 0 < snd e) (count_pass K_eq_dec l))
      by (apply positive_fold_incr; constructor).
    rewrite Forall_forall in P. split; [apply (P _ H)|].
    apply In_lookup in H; [|apply count_pass_NoDup].
    pose proof (count_of_fold_incr k l []) as C.
    unfold count_of in C. fold (count_pass K_eq_dec l) in C.
    rewrite H in C. simpl in C. exact C.
  - intros [Hpos ->].
    apply lookup_In.
    pose proof (count_of_fold_incr k l []) as C.
    unfold count_of in C. fold (count_pass K_eq_dec l) in C. simpl in C.
    destruct (lookup K_eq_dec k (count_pass K_eq_dec l)) eqn:E;
      [now subst|lia].
Qed.

End SeriesFacts.

(** ** Sorting by count and arg-max *)

Section SortFacts.

Context {K : Type}.
Variable K_eq_dec : forall x y : K, {x = y} + {x <> y}.

Lemma series_sum_incr k (acc : list (K * nat)) :
  series_sum (incr K_eq_dec k acc) = S (series_sum acc).
Proof.
  unfold series_sum.
  induction acc as [|[k0 c0] t IH]; simpl; [reflexivity|].
  destruct (K_eq_dec k k0); simpl; [reflexivity|].
  rewrite IH; lia.
Qed.

Lemma series_sum_count_pass (l : list K) :
  series_sum (count_pass K_eq_dec l) = length l.
Proof.
  unfold count_pass.
  assert (G : forall acc,
             series_sum (fold_left (fun a k => incr K_eq_dec k a) l acc)
             = series_sum acc + length l).
  { induction l as [|x t IH]; intro acc; simpl; [lia|].
    rewrite IH, series_sum_incr; lia. }
  now rewrite G.
Qed.

Lemma series_sum_perm (s s' : list (K * nat)) :
  Permutation s s' -> series_sum s = series_sum s'.
Proof.
  induction 1; unfold series_sum in *; simpl; lia.
Qed.

Lemma insert_desc_perm (x : K * nat) s : Permutation (insert_desc x s) (x :: s).
Proof.
  induction s as [|y t IH]; simpl; [reflexivity|].
  destruct (snd y <=? snd x); [reflexivity|].
  rewrite IH. apply perm_swap.
Qed.

Lemma sort_values_desc_perm (s : list (K * nat)) :
  Permutation (sort_values_desc s) s.
Proof.
  induction s as [|x t IH]; simpl; [constructor|].
  rewrite insert_desc_perm. now constructor.
Qed.

Lemma insert_desc_sorted (x : K * nat) s :
  StronglySorted by_count_desc s ->
  StronglySorted by_count_desc (insert_desc x s).
Proof.
  induction 1 as [|y t Ht IH Hy]; simpl.
  - repeat constructor.
  - destruct (snd y <=? snd x) eqn:E.
    + apply Nat.leb_le in E. constructor; [now constructor|].
      constructor; [exact E|].
      eapply Forall_impl; [|exact Hy].
      unfold by_count_desc; intros; lia.
    + apply Nat.leb_gt in E. constructor; [exact IH|].
      rewrite Forall_forall in *. intros z Hz.
      apply (Permutation_in _ (insert_desc_perm x t)) in Hz.
      destruct Hz as [<-|Hz]; [unfold by_count_desc; lia|auto].
Qed.

Lemma sort_values_desc_sorted (s : list (K * nat)) :
  StronglySorted by_count_desc (sort_values_desc s).
Proof.
  induction s as [|x t IH]; simpl; [constructor|].
  now apply insert_desc_sorted.
Qed.

(** Stability, as far as the head is concerned: the sorted Series
    starts with the first entry of the input that holds the maximum. *)
Lemma sort_values_desc_head (s : list (K * nat)) :
  s <> [] ->
  exists l1 k c l2 rest,
    s = l1 ++ (k, c) :: l2 /\
    sort_values_desc s = (k, c) :: rest /\
    Forall (fun e => snd e < c) l1 /\
    Forall (fun e => snd e <= c) l2.
Proof.
  induction s as [|[kx cx] t IH]; [congruence|intros _].
  destruct t as [|y t'].
  - exists [], kx, cx, [], []. simpl. repeat split; constructor.
  - destruct IH as (l1 & k & c & l2 & rest & E & S & F1 & F2);
      [discriminate|].
    simpl in *. rewrite S. simpl.
    destruct (c <=? cx) eqn:L.
    + apply Nat.leb_le in L.
      exists [], kx, cx, (y :: t'), ((k, c) :: rest).
      repeat split; [constructor|].
      rewrite E. apply Forall_app; split.
      * eapply Forall_impl; [|exact F1]; simpl; intros; lia.
      * constructor; [simpl; lia|].
        eapply Forall_impl; [|exact F2]; simpl; intros; lia.
    + apply Nat.leb_gt in L.
      exists ((kx, cx) :: l1), k, c, l2, (insert_desc (kx, cx) rest).
      rewrite E. repeat split; auto.
Qed.

Lemma idxmax_from_spec (s : list (K * nat)) : forall best,
  exists l1 c l2,
    best :: s = l1 ++ (idxmax_from best s, c) :: l2 /\
    Forall (fun e => snd e < c) l1 /\
    Forall (fun e => snd e <= c) l2.
Proof.
  induction s as [|y t IH]; intro best; simpl.
  - exists [], (snd best), []. destruct best; simpl. repeat split; constructor.
  - destruct (snd best <? snd y) eqn:L.
    + apply Nat.ltb_lt in L.
      destruct (IH y) as (l1 & c & l2 & E & F1 & F2).
      exists (best :: l1), c, l2. simpl. split; [now f_equal|].
      split; [|exact F2]. constructor; [|exact F1].
      destruct l1 as [|z l1']; simpl in E; injection E as Ey Et.
      * assert (snd y = c) by (rewrite Ey; reflexivity). lia.
      * rewrite Ey in L. inversion F1; lia.
    + apply Nat.ltb_ge in L.
      destruct (IH best) as (l1 & c & l2 & E & F1 & F2).
      destruct l1 as [|z l1']; simpl in E; injection E as Ey Et.
      * assert (snd best = c) by (rewrite Ey; reflexivity).
        exists [], c, (y :: t). simpl. split; [now rewrite <- Ey|].
        split; [constructor|]. constructor; [lia|now rewrite Et].
      * exists (best :: y :: l1'), c, l2. simpl.
        split; [do 2 f_equal; exact Et|]. split; [|exact F2].
        rewrite <- Ey in F1. inversion F1; subst.
        repeat constructor; auto; lia.
Qed.

Lemma idxmax_spec (s : list (K * nat)) :
  s <> [] ->
  exists k l1 c l2,
    idxmax s = inr k /\
    s = l1 ++ (k, c) :: l2 /\
    Forall (fun e => snd e < c) l1 /\
    Forall (fun e => snd e <= c) l2.
Proof.
  destruct s as [|x t]; [congruence|intros _].
  destruct (idxmax_from_spec t x) as (l1 & c & l2 & E & F1 & F2).
  exists (idxmax_from x t), l1, c, l2. repeat split; auto.
Qed.

Lemma idxmax_empty : idxmax (@nil (K * nat)) = inl ValueError.
Proof. reflexivity. Qed.

(** In a Series sorted by descending count the arg-max is the head. *)
Lemma sorted_prefix_nil (l1 : list (K * nat)) k c l2 :
  StronglySorted by_count_desc (l1 ++ (k, c) :: l2) ->
  Forall (fun e => snd e < c) l1 ->
  l1 = [].
Proof.
  destruct l1 as [|x l1']; [reflexivity|]. simpl; intros S F.
  inversion S; subst. inversion F; subst.
  rewrite Forall_forall in H2.
  assert (H : by_count_desc x (k, c))
    by (apply H2, in_or_app; right; now left).
  unfold by_count_desc in H; simpl in H; lia.
Qed.

(** The arg-max of [value_counts]: the key with the largest number of
    occurrences and, among equals, the one met first. *)
Lemma value_counts_idxmax (l : list K) :
  l <> [] ->
  exists k m1 m2,
    idxmax (value_counts K_eq_dec l) = inr k /\
    (forall k', count_occ K_eq_dec l k' <= count_occ K_eq_dec l k) /\
    l = m1 ++ k :: m2 /\ ~ In k m1 /\
    (forall b, In b m1 -> count_occ K_eq_dec l b < count_occ K_eq_dec l k).
Proof.
  intro Hl. unfold value_counts.
  assert (Hc : count_pass K_eq_dec l <> []).
  { intro E. pose proof (series_sum_count_pass l) as Hsum.
    rewrite E in Hsum. destruct l; [congruence|discriminate]. }
  destruct (sort_values_desc_head _ Hc)
    as (l1 & k & c & l2 & rest & E & Hsort & F1 & F2).
  assert (Hs : sort_values_desc (count_pass K_eq_dec l) <> [])
    by (rewrite Hsort; discriminate).
  destruct (idxmax_spec _ Hs) as (k' & p1 & c' & p2 & I & E' & G1 & G2).
  assert (p1 = []).
  { eapply sorted_prefix_nil; [|exact G1].
    rewrite <- E'. apply sort_values_desc_sorted. }
  subst p1. simpl in E'. rewrite Hsort in E'. inversion E'; subst k' c' p2.
  assert (Hk : c = count_occ K_eq_dec l k).
  { apply (count_pass_spec K_eq_dec l k c). rewrite E.
    apply in_or_app; right; now left. }
  pose proof (count_pass_keys K_eq_dec l) as Ks.
  rewrite E in Ks. unfold keys in Ks. rewrite map_app in Ks. simpl in Ks.
  symmetry in Ks.
  destruct (first_seen_split K_eq_dec l _ _ _ _ Ks)
    as (m1 & m2 & El & Hn & _ & Hb).
  exists k, m1, m2. rewrite <- Hk. repeat split; auto.
  - intro k'. destruct (count_occ K_eq_dec l k') eqn:C; [lia|].
    assert (Hin : In (k', S n) (count_pass K_eq_dec l))
      by (apply count_pass_spec; split; [lia|now rewrite C]).
    rewrite E in Hin. apply in_app_or in Hin.
    rewrite Forall_forall in F1, F2.
    destruct Hin as [H|[H|H]].
    + apply F1 in H; simpl in H; lia.
    + inversion H; lia.
    + apply F2 in H; simpl in H; lia.
  - intros b Hbm. destruct (Hb b Hbm) as [[]|Hb1].
    apply in_map_iff in Hb1. destruct Hb1 as ([b' cb] & Eb & Hb1).
    simpl in Eb; subst b'.
    assert (Hin : In (b, cb) (count_pass K_eq_dec l))
      by (rewrite E; apply in_or_app; now left).
    apply count_pass_spec in Hin. destruct Hin as [_ ->].
    rewrite Forall_forall in F1. apply (F1 _ Hb1).
Qed.

Lemma value_counts_spec (l : list K) k c :
  In (k, c) (value_counts K_eq_dec l)
  <-> 0 < c /\ c = count_occ K_eq_dec l k.
Proof.
  rewrite <- count_pass_spec. unfold value_counts.
  split; apply Permutation_in;
    [|symmetry]; apply sort_values_desc_perm.
Qed.

Lemma value_counts_NoDup (l : list K) : NoDup (keys (value_counts K_eq_dec l)).
Proof.
  unfold value_counts, keys.
  eapply Permutation_NoDup;
    [apply Permutation_map; symmetry; apply sort_values_desc_perm|].
  apply count_pass_NoDup.
Qed.

Lemma value_counts_sum (l : list K) :
  series_sum (value_counts K_eq_dec l) = length l.
Proof.
  unfold value_counts.
  rewrite (series_sum_perm _ _ (sort_values_desc_perm _)).
  apply series_sum_count_pass.
Qed.

End SortFacts.

(** ** Sorting by index *)

Lemma insert_by_index_perm x s : Permutation (insert_by_index x s) (x :: s).
Proof.
  induction s as [|y t IH]; simpl; [reflexivity|].
  destruct (fst x <=? fst y)%Z; [reflexivity|].
  rewrite IH. apply perm_swap.
Qed.

Lemma sort_index_perm s : Permutation (sort_index s) s.
Proof.
  induction s as [|x t IH]; simpl; [constructor|].
  rewrite insert_by_index_perm. now constructor.
Qed.

Lemma insert_by_index_sorted x s :
  StronglySorted by_index s -> StronglySorted by_index (insert_by_index x s).
Proof.
  induction 1 as [|y t Ht IH Hy]; simpl.
  - repeat constructor.
  - destruct (fst x <=? fst y)%Z eqn:E.
    + apply Z.leb_le in E. constructor; [now constructor|].
      constructor; [exact E|].
      eapply Forall_impl; [|exact Hy].
      unfold by_index; intros; lia.
    + apply Z.leb_gt in E. constructor; [exact IH|].
      rewrite Forall_forall in *. intros z Hz.
      apply (Permutation_in _ (insert_by_index_perm x t)) in Hz.
      destruct Hz as [<-|Hz]; [unfold by_index; lia|auto].
Qed.

Lemma sort_index_sorted s : StronglySorted by_index (sort_index s).
Proof.
  induction s as [|x t IH]; simpl; [constructor|].
  now apply insert_by_index_sorted.
Qed.

Lemma sorted_suffix {A : Type} (R : A -> A -> Prop) l1 x l2 :
  StronglySorted R (l1 ++ x :: l2) -> Forall (R x) l2.
Proof.
  induction l1 as [|y t IH]; simpl; intro H; inversion H; subst; auto.
Qed.

(** ** Task 1 *)

Lemma hour_column_traverse rs :
  hour_column rs = traverse hour_of (map TIME_OCC rs).
Proof.
  unfold hour_column, astype_int, str_slice_to, str_zfill, hour_of.
  induction rs as [|r t IH]; simpl; [reflexivity|].
  now rewrite IH.
Qed.

Lemma hour_column_length rs hours :
  hour_column rs = inr hours -> length hours = length rs.
Proof.
  rewrite hour_column_traverse. intro H.
  apply traverse_ok_length in H. now rewrite length_map in H.
Qed.

(** The first task in closed form: it either raises while the column is
    derived, leaving the table alone, or stores the column and then
    looks for the peak. *)
Lemma task1_unfold (crimes : DataFrame) :
  task1 crimes =
  match hour_column (rows crimes) with
  | inl e => (inl e, crimes)
  | inr hours =>
      (match peak_crime_hour hours with
       | inl e => inl e
       | inr peak => inr (hour_counts hours, peak)
       end,
       mkDF (rows crimes) (Some hours))
  end.
Proof.
  unfold task1, seq, get_rows, lift, set_HOUR_OCC, get_HOUR_OCC, ret. simpl.
  destruct (hour_column (rows crimes)) as [e|hours]; [reflexivity|]. simpl.
  destruct (peak_crime_hour hours); reflexivity.
Qed.

Lemma hour_counts_spec hours h c :
  In (h, c) (hour_counts hours)
  <-> 0 < c /\ c = count_occ Z.eq_dec hours h.
Proof.
  rewrite <- value_counts_spec. unfold hour_counts.
  split; apply Permutation_in; [|symmetry]; apply sort_index_perm.
Qed.

Lemma hour_counts_NoDup hours : NoDup (keys (hour_counts hours)).
Proof.
  unfold hour_counts, keys.
  eapply Permutation_NoDup;
    [apply Permutation_map; symmetry; apply sort_index_perm|].
  apply value_counts_NoDup.
Qed.

(** Every record is counted in one entry: the counts add up to the
    number of records. *)
Lemma hour_counts_sum hours : series_sum (hour_counts hours) = length hours.
Proof.
  unfold hour_counts.
  rewrite (series_sum_perm _ _ (sort_index_perm _)).
  apply value_counts_sum.
Qed.

Lemma hour_counts_sorted hours : StronglySorted by_index (hour_counts hours).
Proof. apply sort_index_sorted. Qed.

Lemma peak_crime_hour_spec hours :
  hours <> [] ->
  exists h c,
    peak_crime_hour hours = inr h /\
    In (h, c) (hour_counts hours) /\
    forall h' c', In (h', c') (hour_counts hours) ->
      c' <= c /\ (c' = c -> (h <= h')%Z).
Proof.
  intro Hne. unfold peak_crime_hour.
  assert (Hs : hour_counts hours <> []).
  { intro E. pose proof (hour_counts_sum hours) as Hsum.
    rewrite E in Hsum. destruct hours; [congruence|discriminate]. }
  destruct (idxmax_spec _ Hs) as (h & l1 & c & l2 & I & E & F1 & F2).
  exists h, c. split; [exact I|].
  split; [rewrite E; apply in_or_app; right; now left|].
  pose proof (hour_counts_sorted hours) as Sd. rewrite E in Sd.
  apply sorted_suffix in Sd.
  rewrite Forall_forall in F1, F2, Sd.
  intros h' c' Hin. rewrite E in Hin. apply in_app_or in Hin.
  destruct Hin as [H|[H|H]].
  - apply F1 in H; simpl in H. split; lia.
  - inversion H; subst. split; lia.
  - split; [apply F2 in H; exact H|].
    intros _. apply Sd in H. exact H.
Qed.

(** C1 (code defect).  The hourly Series is [value_counts().sort_index()]
    and nothing more: an hour that no record has gets no entry.  For a
    table with one record at 05:00 the Series is the single entry
    (5, 1), so hour 0 is absent and the Series does not have 24
    entries. *)
Theorem C1_hour_counts_has_gaps :
  let crimes := read_csv [mkRow (Some "0500") (Some "Central") (Some 30%Z)] in
  fst (task1 crimes) = inr ([(5%Z, 1)], 5%Z) /\
  lookup Z.eq_dec 0%Z (hour_counts [5%Z]) = None /\
  length (hour_counts [5%Z]) <> 24.
Proof.
  repeat split; try reflexivity. simpl. discriminate.
Qed.

(** C2.  For a non-empty table whose hours can all be derived, the first
    task returns the hour whose entry in the hour-to-count Series is
    maximal, and among the hours that share the maximum the lowest one;
    the count of an hour is the number of records with that hour.  For
    records with hours 5, 5, 5, 13, 13, 22 the peak is hour 5 with
    count 3. *)
Theorem C2_peak_crime_hour_lowest_argmax :
  (forall (rs : list row) (hours : list Z),
      rs <> [] ->
      hour_column rs = inr hours ->
      exists h c,
        fst (task1 (read_csv rs)) = inr (hour_counts hours, h) /\
        In (h, c) (hour_counts hours) /\
        c = count_occ Z.eq_dec hours h /\
        forall h' c', In (h', c') (hour_counts hours) ->
          c' <= c /\ (c' = c -> (h <= h')%Z))
  /\
  (let rs := map (fun t => mkRow (Some t) None None)
                 ["0500"; "0510"; "0559"; "1300"; "1330"; "2215"] in
   hour_column rs = inr [5; 5; 5; 13; 13; 22]%Z /\
   fst (task1 (read_csv rs)) = inr ([(5%Z, 3); (13%Z, 2); (22%Z, 1)], 5%Z)).
Proof.
  split; [|split; reflexivity].
  intros rs hours Hne Hcol.
  assert (Hh : hours <> []).
  { apply hour_column_length in Hcol.
    destruct hours; [|discriminate]. destruct rs; [congruence|discriminate]. }
  destruct (peak_crime_hour_spec hours Hh) as (h & c & P & Hin & Hmax).
  exists h, c. rewrite task1_unfold. simpl. rewrite Hcol, P. simpl.
  repeat split; auto.
  - apply hour_counts_spec in Hin. tauto.
  - apply (Hmax _ _ H).
  - apply (Hmax _ _ H).
Qed.

Lemma C2_peak_crime_hour_lowest_argmax_witness :
  exists h c,
    fst (task1 (read_csv [mkRow (Some "0930") None None;
                          mkRow (Some "0215") None None;
                          mkRow (Some "0945") None None;
                          mkRow (Some "0230") None None]))
    = inr (hour_counts [9; 2; 9; 2]%Z, h) /\
    In (h, c) (hour_counts [9; 2; 9; 2]%Z) /\
    c = count_occ Z.eq_dec [9; 2; 9; 2]%Z h /\
    forall h' c', In (h', c') (hour_counts [9; 2; 9; 2]%Z) ->
      c' <= c /\ (c' = c -> (h <= h')%Z).
Proof.
  apply (proj1 C2_peak_crime_hour_lowest_argmax
           [mkRow (Some "0930") None None; mkRow (Some "0215") None None;
            mkRow (Some "0945") None None; mkRow (Some "0230") None None]
           [9; 2; 9; 2]%Z).
  - discriminate.
  - reflexivity.
Defined.

(** ** Task 2 *)

Lemma night_hours_window h :
  existsb (Z.eqb h) night_hours = in_night_window h.
Proof.
  unfold night_hours, in_night_window. simpl.
  apply eq_true_iff_eq.
  rewrite !orb_true_iff, !andb_true_iff, !Z.eqb_eq, !Z.leb_le.
  split; intro H; [|lia].
  destruct H as [H|[H|[H|[H|[H|[H|H]]]]]]; try discriminate; lia.
Qed.

Lemma night_crimes_filter rs hours :
  night_crimes rs hours
  = map fst (filter (fun rh => in_night_window (snd rh)) (combine rs hours)).
Proof.
  unfold night_crimes, isin.
  rewrite (map_ext _ _ night_hours_window).
  revert hours; induction rs as [|r t IH]; intros [|h hs]; simpl; auto.
  rewrite IH. destruct (in_night_window h); reflexivity.
Qed.

Lemma task2_unfold (crimes : DataFrame) :
  task2 crimes =
  match HOUR_OCC crimes with
  | None => (inl KeyError, crimes)
  | Some hours =>
      let night := night_crimes (rows crimes) hours in
      (match peak_night_crime_location night with
       | inl e => inl e
       | inr peak => inr (night_crime_by_area night, peak)
       end,
       crimes)
  end.
Proof.
  unfold task2, seq, get_rows, lift, get_HOUR_OCC, ret. simpl.
  destruct (HOUR_OCC crimes) as [hours|]; [|reflexivity]. simpl.
  destruct (peak_night_crime_location _); reflexivity.
Qed.



(** ** Task 3 *)

(** The bracket of an age, read off the bin edges. *)
Lemma cut_age_closed (a : Z) :
  cut_cell age_bins age_labels (Some a) =
  if (a <=? 0)%Z then None
  else if (a <=? 17)%Z then Some "0-17"
  else if (a <=? 25)%Z then Some "18-25"
  else if (a <=? 34)%Z then Some "26-34"
  else if (a <=? 44)%Z then Some "35-44"
  else if (a <=? 54)%Z then Some "45-54"
  else if (a <=? 64)%Z then Some "55-64"
  else Some "65+".
Proof.
  unfold cut_cell, age_bins, age_labels, searchsorted_left, edge_below.
  assert (C : (a <= 0 \/ 0 < a <= 17 \/ 17 < a <= 25 \/ 25 < a <= 34 \/
               34 < a <= 44 \/ 44 < a <= 54 \/ 54 < a <= 64 \/ 64 < a)%Z)
    by lia.
  destruct C as [C|[C|[C|[C|[C|[C|[C|C]]]]]]]; decide_cmp; reflexivity.
Qed.





Section ReindexFacts.

Context {K : Type}.
Variable K_eq_dec : forall x y : K, {x = y} + {x <> y}.

(** Reindexing the counts of a categorical column by its categories
    lists the categories in their own order, each with the number of
    cells that carry it. *)
Lemma reindex_categorical (labels : list K) (col : list (option K)) fill :
  NoDup labels ->
  reindex K_eq_dec labels fill (categorical_value_counts K_eq_dec labels col)
  = map (fun l => (l, count_occ K_eq_dec (dropna col) l)) labels.
Proof.
  intro Hnd. unfold reindex, categorical_value_counts.
  apply map_ext_in. intros l Hl.
  set (entries := map (fun c => (c, count_occ K_eq_dec (dropna col) c)) labels).
  assert (P : Permutation (sort_values_desc entries) entries)
    by apply sort_values_desc_perm.
  rewrite (In_lookup K_eq_dec l (count_occ K_eq_dec (dropna col) l)).
  - reflexivity.
  - unfold keys. eapply Permutation_NoDup;
      [apply Permutation_map; symmetry; exact P|].
    unfold entries. rewrite map_map. simpl. now rewrite map_id.
  - apply (Permutation_in _ (Permutation_sym P)). unfold entries.
    apply in_map_iff. exists l; auto.
Qed.



End ReindexFacts.

Lemma age_labels_NoDup : NoDup age_labels.
Proof.
  unfold age_labels.
  repeat (constructor; [simpl; intuition discriminate|]). constructor.
Qed.

Lemma victim_ages_closed rs :
  victim_ages rs
  = map (fun l => (l, count_occ string_dec (dropna (age_groups rs)) l))
        age_labels.
Proof.
  unfold victim_ages. apply reindex_categorical, age_labels_NoDup.
Qed.


Lemma task3_unfold (crimes : DataFrame) :
  task3 crimes
  = (inr (victim_ages (rows crimes),
          percentages (victim_ages (rows crimes))), crimes).
Proof. reflexivity. Qed.




(** C4 (amended).  The brackets have right-inclusive upper bounds and
    the first one excludes its lower edge 0: ages 1 to 17 fall in
    "0-17", 18 to 25 in "18-25", and so on, 65 and above in "65+"; an
    age of 0 or below gets no bracket.  In particular 17 is in "0-17",
    18 in "18-25", 64 in "55-64" and 65 in "65+". *)
Theorem C4_age_brackets :
  (forall a : Z,
      cut_cell age_bins age_labels (Some a) =
      if (a <=? 0)%Z then None
      else if (a <=? 17)%Z then Some "0-17"
      else if (a <=? 25)%Z then Some "18-25"
      else if (a <=? 34)%Z then Some "26-34"
      else if (a <=? 44)%Z then Some "35-44"
      else if (a <=? 54)%Z then Some "45-54"
      else if (a <=? 64)%Z then Some "55-64"
      else Some "65+")
  /\
  age_groups (map (fun a => mkRow None None (Some a)) [0; 1; 17; 18; 64; 65]%Z)
  = [None; Some "0-17"; Some "0-17"; Some "18-25"; Some "55-64"; Some "65+"].
Proof.
  split; [apply cut_age_closed|reflexivity].
Qed.

(** C4, as stated, fails: a victim age of 0 does not fall in "0-17",
    it gets no bracket and is counted nowhere. *)
Lemma C4_age_zero_counterexample :
  cut_cell age_bins age_labels (Some 0%Z) <> Some "0-17" /\
  victim_ages [mkRow (Some "1200") (Some "Central") (Some 0%Z)]
  = [("0-17", 0); ("18-25", 0); ("26-34", 0); ("35-44", 0); ("45-54", 0);
     ("55-64", 0); ("65+", 0)].
Proof.
  split; [discriminate|reflexivity].
Qed.



(** ** Deriving the hour *)

Lemma digit_of_code c d :
  digit_of c = Some d ->
  48 <= nat_of_ascii c <= 57 /\ d = Z.of_nat (nat_of_ascii c - 48).
Proof.
  unfold digit_of.
  destruct ((48 <=? nat_of_ascii c) && (nat_of_ascii c <=? 57)) eqn:E;
    [|discriminate].
  apply andb_true_iff in E. destruct E as [E1 E2].
  apply Nat.leb_le in E1. apply Nat.leb_le in E2.
  intro H; inversion H. lia.
Qed.

Lemma digit_of_bounds c d : digit_of c = Some d -> (0 <= d <= 9)%Z.
Proof. intro H. apply digit_of_code in H. lia. Qed.

Lemma digit_not_space c d : digit_of c = Some d -> is_space c = false.
Proof.
  intro H. apply digit_of_code in H. destruct H as [H _].
  unfold is_space.
  repeat match goal with
         | |- context [?x <=? ?y] => destruct (Nat.leb_spec x y)
         | |- context [?x =? ?y] => destruct (Nat.eqb_spec x y)
         end; simpl; try reflexivity; lia.
Qed.

Lemma digit_not_char c d (k : ascii) :
  digit_of c = Some d ->
  nat_of_ascii k < 48 \/ 57 < nat_of_ascii k ->
  Ascii.eqb c k = false.
Proof.
  intros H Hk. apply digit_of_code in H. destruct H as [H _].
  destruct (Ascii.eqb_spec c k) as [E|N]; [|reflexivity].
  subst. lia.
Qed.

Lemma digit_not_sign c d : digit_of c = Some d -> is_sign c = false.
Proof.
  intro H. unfold is_sign.
  rewrite (digit_not_char c d "+" H), (digit_not_char c d "-" H);
    [reflexivity| |]; left; apply Nat.ltb_lt; reflexivity.
Qed.

(** [int] of two decimal digits. *)
Lemma py_int_two_digits a b x y :
  digit_of a = Some x -> digit_of b = Some y ->
  py_int (String a (String b EmptyString)) = inr (10 * x + y)%Z.
Proof.
  intros Ha Hb. unfold py_int, strip.
  cbn [lstrip]. rewrite (digit_not_space a x Ha).
  cbn [rstrip]. rewrite (digit_not_space b y Hb).
  rewrite (digit_not_char a x "-" Ha), (digit_not_char a x "+" Ha)
    by (left; apply Nat.ltb_lt; reflexivity).
  unfold int_unsigned. rewrite Ha. cbn [int_digits]. rewrite Hb.
  reflexivity.
Qed.

Lemma slice_to_2 a b rest :
  slice_to 2 (String a (String b rest)) = String a (String b EmptyString).
Proof. unfold slice_to. simpl. destruct rest; reflexivity. Qed.

(** Only the first two characters of the padded string are read. *)
Lemma hour_of_prefix s a b rest x y :
  zfill 4 s = String a (String b rest) ->
  digit_of a = Some x -> digit_of b = Some y ->
  hour_of (Some s) = inr (10 * x + y)%Z.
Proof.
  intros Hz Ha Hb. unfold hour_of. simpl. rewrite Hz, slice_to_2.
  now apply py_int_two_digits.
Qed.

Lemma digit_of_zero : digit_of "0" = Some 0%Z.
Proof. reflexivity. Qed.

Lemma decimal_from_nil acc : decimal_from acc EmptyString = Some acc.
Proof. reflexivity. Qed.

Lemma decimal_from_cons acc c r :
  decimal_from acc (String c r)
  = match digit_of c with
    | Some d => decimal_from (10 * acc + d) r
    | None => None
    end.
Proof. reflexivity. Qed.

(** A time of at most four decimal digits denotes the number HHMM; its
    derived hour is HH. *)
Lemma hour_of_decimal s v :
  String.length s <= 4 -> decimal s = Some v ->
  hour_of (Some s) = inr (v / 100)%Z.
Proof.
  unfold decimal. intros Hlen Hv.
  destruct s as [|a [|b [|c [|d [|e s']]]]]; simpl in Hlen; try lia;
    rewrite ?decimal_from_cons, ?decimal_from_nil in Hv.
  - rewrite ?decimal_from_cons, ?decimal_from_nil in Hv. value_of Hv. reflexivity.
  - destruct (digit_of a) as [x|] eqn:Ha; [|discriminate].
    rewrite ?decimal_from_cons, ?decimal_from_nil in Hv. value_of Hv. pose proof (digit_of_bounds _ _ Ha).
    rewrite (hour_of_prefix _ "0" "0" (String "0" (String a EmptyString)) 0 0)%Z;
      [f_equal; symmetry; apply Z.div_small; lia| |reflexivity|reflexivity].
    unfold zfill. cbn [String.length Nat.leb Nat.sub zeros append]. now rewrite (digit_not_sign a x Ha).
  - destruct (digit_of a) as [x|] eqn:Ha; [|discriminate].
    rewrite ?decimal_from_cons, ?decimal_from_nil in Hv.
    destruct (digit_of b) as [y|] eqn:Hb; [|discriminate].
    rewrite ?decimal_from_cons, ?decimal_from_nil in Hv. value_of Hv.
    pose proof (digit_of_bounds _ _ Ha). pose proof (digit_of_bounds _ _ Hb).
    rewrite (hour_of_prefix _ "0" "0" (String a (String b EmptyString)) 0 0)%Z;
      [f_equal; symmetry; apply Z.div_small; lia| |reflexivity|reflexivity].
    unfold zfill. cbn [String.length Nat.leb Nat.sub zeros append]. now rewrite (digit_not_sign a x Ha).
  - destruct (digit_of a) as [x|] eqn:Ha; [|discriminate].
    rewrite ?decimal_from_cons, ?decimal_from_nil in Hv.
    destruct (digit_of b) as [y|] eqn:Hb; [|discriminate].
    rewrite ?decimal_from_cons, ?decimal_from_nil in Hv.
    destruct (digit_of c) as [z|] eqn:Hc; [|discriminate].
    rewrite ?decimal_from_cons, ?decimal_from_nil in Hv. value_of Hv.
    pose proof (digit_of_bounds _ _ Ha). pose proof (digit_of_bounds _ _ Hb).
    pose proof (digit_of_bounds _ _ Hc).
    rewrite (hour_of_prefix _ "0" a (String b (String c EmptyString)) 0 x)%Z;
      [f_equal; apply Z.div_unique with (r := (10 * y + z)%Z); lia
      | |reflexivity|assumption].
    unfold zfill. cbn [String.length Nat.leb Nat.sub zeros append]. now rewrite (digit_not_sign a x Ha).
  - destruct (digit_of a) as [x|] eqn:Ha; [|discriminate].
    rewrite ?decimal_from_cons, ?decimal_from_nil in Hv.
    destruct (digit_of b) as [y|] eqn:Hb; [|discriminate].
    rewrite ?decimal_from_cons, ?decimal_from_nil in Hv.
    destruct (digit_of c) as [z|] eqn:Hc; [|discriminate].
    rewrite ?decimal_from_cons, ?decimal_from_nil in Hv.
    destruct (digit_of d) as [w|] eqn:Hd; [|discriminate].
    rewrite ?decimal_from_cons, ?decimal_from_nil in Hv. value_of Hv.
    pose proof (digit_of_bounds _ _ Ha). pose proof (digit_of_bounds _ _ Hb).
    pose proof (digit_of_bounds _ _ Hc). pose proof (digit_of_bounds _ _ Hd).
    rewrite (hour_of_prefix _ a b (String c (String d EmptyString)) x y)%Z;
      [f_equal; apply Z.div_unique with (r := (10 * z + w)%Z); lia
      |reflexivity|assumption|assumption].
Qed.

Lemma hour_of_error t e : hour_of t = inl e -> e = ValueError.
Proof.
  unfold hour_of, int_of_cell. destruct t as [s|]; simpl.
  - unfold py_int. destruct (strip _); [intro H; now inversion H|].
    match goal with |- context [match ?p with Some _ => _ | None => _ end] =>
      destruct p end; intro H; now inversion H.
  - intro H; now inversion H.
Qed.

Lemma traverse_error {A B : Type} (f : A -> result B) (l : list A) e0 :
  (forall x e, f x = inl e -> e = e0) ->
  forall e, traverse f l = inl e -> e = e0.
Proof.
  intros Hf. induction l as [|x t IH]; simpl; intros e H; [discriminate|].
  destruct (f x) as [e'|y] eqn:E; simpl in H.
  - inversion H; subst. eapply Hf; eauto.
  - destruct (traverse f t) as [e'|ys]; simpl in H; [|discriminate].
    inversion H; subst. now apply IH.
Qed.

Lemma hour_column_error rs e : hour_column rs = inl e -> e = ValueError.
Proof.
  rewrite hour_column_traverse. apply traverse_error. apply hour_of_error.
Qed.





(** C9 (amended).  When the time of every record is a string of at most
    four decimal digits that denotes a number below 2400, the hour
    column is derived, every record has exactly one hour, and that hour
    is the number divided by 100, an integer in [0, 23].  The code puts
    no bound on the hour of other times. *)
Theorem C9_derived_hour : forall rs : list row,
  Forall (fun r => exists s v,
              TIME_OCC r = Some s /\ String.length s <= 4 /\
              decimal s = Some v /\ (v < 2400)%Z) rs ->
  exists hours,
    hour_column rs = inr hours /\
    length hours = length rs /\
    Forall2 (fun r h =>
               hour_of (TIME_OCC r) = inr h /\ (0 <= h <= 23)%Z /\
               exists s v,
                 TIME_OCC r = Some s /\ decimal s = Some v /\
                 h = (v / 100)%Z)
            rs hours.
Proof.
  intros rs H. rewrite hour_column_traverse.
  induction H as [|r t (s & v & Hs & Hlen & Hv & Hb) Ht IH]; simpl.
  - exists []. repeat split; constructor.
  - destruct IH as (hours & E & L & F).
    pose proof (hour_of_decimal s v Hlen Hv) as Hh.
    assert (Hpos : (0 <= v)%Z).
    { clear - Hv. unfold decimal in Hv.
      assert (G : forall s acc v, (0 <= acc)%Z ->
                    decimal_from acc s = Some v -> (0 <= v)%Z).
      { induction s0 as [|c r IHs]; intros acc w Ha Hw.
        - rewrite decimal_from_nil in Hw. inversion Hw; lia.
        - rewrite decimal_from_cons in Hw.
          destruct (digit_of c) as [d|] eqn:Hd; [|discriminate].
          apply digit_of_bounds in Hd.
          apply (IHs (10 * acc + d)%Z w); [lia|exact Hw]. }
      apply (G s 0%Z v); [lia|exact Hv]. }
    rewrite Hs, Hh, E. simpl.
    exists ((v / 100)%Z :: hours). repeat split; simpl; auto.
    constructor; [|exact F].
    rewrite Hs. repeat split; auto.
    + apply Z.div_pos; lia.
    + assert (v / 100 < 24)%Z by (apply Z.div_lt_upper_bound; lia). lia.
    + exists s, v. auto.
Qed.

Lemma C9_derived_hour_witness :
  exists hours,
    hour_column [mkRow (Some "0000") None None; mkRow (Some "2359") None None;
                 mkRow (Some "0003") None None; mkRow (Some "15") None None]
    = inr hours /\
    length hours = 4 /\
    Forall2 (fun r h =>
               hour_of (TIME_OCC r) = inr h /\ (0 <= h <= 23)%Z /\
               exists s v,
                 TIME_OCC r = Some s /\ decimal s = Some v /\
                 h = (v / 100)%Z)
            [mkRow (Some "0000") None None; mkRow (Some "2359") None None;
             mkRow (Some "0003") None None; mkRow (Some "15") None None]
            hours.
Proof.
  apply (C9_derived_hour
           [mkRow (Some "0000") None None; mkRow (Some "2359") None None;
            mkRow (Some "0003") None None; mkRow (Some "15") None None]).
  repeat (apply Forall_cons || apply Forall_nil); simpl.
  - exists "0000", 0%Z. repeat split; simpl; lia.
  - exists "2359", 2359%Z. repeat split; simpl; lia.
  - exists "0003", 3%Z. repeat split; simpl; lia.
  - exists "15", 15%Z. repeat split; simpl; lia.
Defined.

(** C9, as stated, fails: the four-digit time "9900" yields the hour 99,
    which is not in [0, 23]. *)
Lemma C9_hour_out_of_range_counterexample :
  hour_column [mkRow (Some "9900") (Some "Central") (Some 30%Z)]
  = inr [99%Z] /\
  ~ (0 <= 99 <= 23)%Z.
Proof.
  split; [reflexivity|lia].
Qed.

(** ** Empty results and the shared table *)






(** C10 (amended).  The hourly task stores the derived column
    ['HOUR OCC'] in the shared table, and that is the only change any
    task makes: the loaded rows never change, and the night and age
    tasks leave the table as it is.  The night task reads the stored
    column and raises [KeyError] on a table that lacks it.  Running the
    hourly task again on the table it left gives the same result and
    the same table; the result of the hourly and of the age task depends
    on the loaded rows only. *)
Theorem C10_tasks_and_the_shared_table : forall crimes : DataFrame,
  rows (snd (task1 crimes)) = rows crimes /\
  HOUR_OCC (snd (task1 crimes))
  = match hour_column (rows crimes) with
    | inr hours => Some hours
    | inl _ => HOUR_OCC crimes
    end /\
  snd (task2 crimes) = crimes /\
  snd (task3 crimes) = crimes /\
  task1 (snd (task1 crimes)) = task1 crimes /\
  fst (task1 crimes) = fst (task1 (read_csv (rows crimes))) /\
  fst (task3 (snd (task1 crimes))) = fst (task3 crimes) /\
  fst (task2 (read_csv (rows crimes))) = inl KeyError.
Proof.
  intro crimes. rewrite !task1_unfold, !task2_unfold, !task3_unfold.
  destruct crimes as [rs col]. simpl.
  destruct (hour_column rs) as [e|hours] eqn:E; simpl.
  - rewrite E. destruct col; repeat split; reflexivity.
  - rewrite E. destruct col; repeat split; reflexivity.
Qed.

(** C10, as stated, fails: the hourly task changes the shared table, and
    the night task depends on that change, raising [KeyError] on the
    table as loaded and returning a result on the table the hourly task
    left. *)
Lemma C10_table_mutated_counterexample :
  let crimes := read_csv [mkRow (Some "2300") (Some "Central")
                                (Some 30%Z)] in
  snd (task1 crimes) <> crimes /\
  fst (task2 crimes) = inl KeyError /\
  fst (task2 (snd (task1 crimes))) = inr ([("Central", 1)], "Central").
Proof.
  split; [discriminate|split; reflexivity].
Qed.

(** ** Boundary values and scenarios, evaluated *)

Example boundary_times :
  hour_column [mkRow (Some "0000") None None; mkRow (Some "2359") None None;
               mkRow (Some "0003") None None; mkRow (Some "0300") None None]
  = inr [0; 23; 0; 3]%Z /\
  isin night_hours [0; 23; 3; 4; 21]%Z = [true; true; true; false; false].
Proof. split; reflexivity. Qed.

Example ages_scenario :
  fst (task3 (read_csv [mkRow None None (Some 10%Z);
                        mkRow None None (Some 20%Z);
                        mkRow None None (Some 20%Z);
                        mkRow None None None]))
  = inr ([("0-17", 1); ("18-25", 2); ("26-34", 0); ("35-44", 0);
          ("45-54", 0); ("55-64", 0); ("65+", 0)],
         [("0-17", Qmake 100 3); ("18-25", Qmake 200 3);
          ("26-34", Qmake 0 3); ("35-44", Qmake 0 3); ("45-54", Qmake 0 3);
          ("55-64", Qmake 0 3); ("65+", Qmake 0 3)]).
Proof. reflexivity. Qed.

(** * Further properties of the script *)

(** ** Padding and parsing the time *)

Lemma zeros_length k : String.length (zeros k) = k.
Proof. induction k; simpl; auto. Qed.

Lemma append_length (a b : string) :
  String.length (a ++ b) = String.length a + String.length b.
Proof. induction a; simpl; auto. Qed.

Lemma slice_to_length n s :
  String.length (slice_to n s) = Nat.min n (String.length s).
Proof.
  unfold slice_to. revert s; induction n as [|k IH]; intros [|c r]; simpl;
    auto.
Qed.

Lemma zfill_length_max w s :
  String.length (zfill w s) = Nat.max w (String.length s).
Proof.
  unfold zfill. destruct (w <=? String.length s) eqn:E.
  - apply Nat.leb_le in E. lia.
  - apply Nat.leb_gt in E. destruct s as [|c rest].
    + rewrite zeros_length. simpl. lia.
    + destruct (is_sign c); simpl in *;
        rewrite append_length, zeros_length; simpl; lia.
Qed.

(** X1.  [zfill(4)] yields a string of at least four characters, the
    longer of 4 and the length of the time, so the slice [[:2]] that
    line 34 takes always has exactly two characters. *)
Theorem X1_padded_time_has_two_leading_characters : forall s : string,
  String.length (zfill 4 s) = Nat.max 4 (String.length s) /\
  String.length (slice_to 2 (zfill 4 s)) = 2.
Proof.
  intro s. split; [apply zfill_length_max|].
  rewrite slice_to_length, zfill_length_max. lia.
Qed.

Lemma append_empty (s : string) : (s ++ EmptyString)%string = s.
Proof. induction s; simpl; congruence. Qed.

Lemma decimal_from_zeros k s :
  decimal_from 0 (zeros k ++ s) = decimal_from 0 s.
Proof.
  induction k as [|k IH]; simpl zeros; [reflexivity|].
  change (String "0" (zeros k) ++ s)%string
    with (String "0" (zeros k ++ s)).
  rewrite decimal_from_cons, digit_of_zero. exact IH.
Qed.

(** X2.  Padding a time that consists of decimal digits does not change
    the number it denotes, whatever the width. *)
Theorem X2_zfill_keeps_the_number : forall (w : nat) (s : string) (v : Z),
  decimal s = Some v -> decimal (zfill w s) = Some v.
Proof.
  intros w s v H. unfold zfill.
  destruct (w <=? String.length s); [exact H|].
  destruct s as [|c rest].
  - unfold decimal in *.
    rewrite <- (append_empty (zeros _)), decimal_from_zeros. exact H.
  - assert (Hs : is_sign c = false).
    { unfold decimal in H. rewrite decimal_from_cons in H.
      destruct (digit_of c) as [d|] eqn:Hd; [|discriminate].
      eapply digit_not_sign; eauto. }
    rewrite Hs. unfold decimal. rewrite decimal_from_zeros. exact H.
Qed.

Lemma X2_zfill_keeps_the_number_witness :
  decimal (zfill 4 "15") = Some 15%Z.
Proof.
  apply (X2_zfill_keeps_the_number 4 "15" 15%Z). reflexivity.
Defined.

Lemma lstrip_length s : String.length (lstrip s) <= String.length s.
Proof.
  induction s as [|c r IH]; simpl; [lia|].
  destruct (is_space c); simpl; lia.
Qed.

Lemma rstrip_length s : String.length (rstrip s) <= String.length s.
Proof.
  induction s as [|c r IH]; simpl; [lia|].
  destruct (rstrip r); [destruct (is_space c)|]; simpl in *; lia.
Qed.

Lemma strip_length s : String.length (strip s) <= String.length s.
Proof.
  unfold strip. pose proof (rstrip_length (lstrip s)).
  pose proof (lstrip_length s). lia.
Qed.

Lemma int_unsigned_short s v :
  String.length s <= 2 -> int_unsigned s = Some v ->
  (0 <= v <= 99)%Z /\ (String.length s <= 1 -> (v <= 9)%Z).
Proof.
  destruct s as [|a [|b [|c r]]]; simpl String.length; intros Hl H;
    try lia; unfold int_unsigned in H.
  - discriminate.
  - destruct (digit_of a) as [x|] eqn:Ha; [|discriminate].
    cbn [int_digits] in H. value_of_in H.
    apply digit_of_bounds in Ha. lia.
  - destruct (digit_of a) as [x|] eqn:Ha; [|discriminate].
    cbn [int_digits] in H.
    destruct (digit_of b) as [y|] eqn:Hb.
    + value_of_in H. apply digit_of_bounds in Ha, Hb. lia.
    + destruct (Ascii.eqb b "_"); discriminate.
Qed.

Lemma py_int_short s h :
  String.length s <= 2 -> py_int s = inr h -> (-9 <= h <= 99)%Z.
Proof.
  intros Hl. unfold py_int.
  pose proof (strip_length s) as Hs.
  destruct (strip s) as [|c r] eqn:E; [discriminate|].
  simpl String.length in Hs.
  destruct (Ascii.eqb c "-").
  - destruct (int_unsigned r) as [v|] eqn:U; [|discriminate].
    cbn [option_map]. intro H.
    assert (h = (- v)%Z) by (unfold ok in H; congruence). subst h.
    destruct (int_unsigned_short r v ltac:(lia) U) as [B1 B2].
    specialize (B2 ltac:(lia)). lia.
  - destruct (Ascii.eqb c "+").
    + destruct (int_unsigned r) as [v|] eqn:U; [|discriminate].
      intro H. assert (h = v) by (unfold ok in H; congruence). subst h.
      destruct (int_unsigned_short r v ltac:(lia) U) as [B1 _]. lia.
    + destruct (int_unsigned (String c r)) as [v|] eqn:U; [|discriminate].
      intro H. assert (h = v) by (unfold ok in H; congruence). subst h.
      destruct (int_unsigned_short (String c r) v
                  ltac:(simpl String.length; lia) U) as [B1 _].
      lia.
Qed.

Lemma hour_of_range t h : hour_of t = inr h -> (-9 <= h <= 99)%Z.
Proof.
  unfold hour_of, int_of_cell. destruct t as [s|]; [|discriminate].
  simpl option_map. apply py_int_short.
  rewrite slice_to_length. lia.
Qed.

Lemma traverse_ok_Forall {A B : Type} (f : A -> result B) (P : B -> Prop)
    (l : list A) ys :
  (forall x y, f x = inr y -> P y) ->
  traverse f l = inr ys -> Forall P ys.
Proof.
  intro Hf. revert ys; induction l as [|x t IH]; simpl; intros ys H.
  - inversion H; constructor.
  - destruct (f x) as [e|y] eqn:E; simpl in H; [discriminate|].
    destruct (traverse f t) as [e|ys']; simpl in H; [discriminate|].
    inversion H; subst. constructor; eauto.
Qed.

(** X3.  Whatever the time strings are, a derived hour column holds
    only integers from -9 to 99: the two characters that are parsed
    leave room for two digits, or for a sign and one digit. *)
Theorem X3_hour_column_range : forall (rs : list row) (hours : list Z),
  hour_column rs = inr hours ->
  Forall (fun h => (-9 <= h <= 99)%Z) hours.
Proof.
  intros rs hours. rewrite hour_column_traverse.
  apply traverse_ok_Forall. intros t h. apply hour_of_range.
Qed.

Lemma X3_hour_column_range_witness :
  Forall (fun h => (-9 <= h <= 99)%Z) [99; -9; 7; 23]%Z.
Proof.
  apply (X3_hour_column_range
           [mkRow (Some "9959") None None; mkRow (Some "-930") None None;
            mkRow (Some " 730") None None; mkRow (Some "2359") None None]).
  reflexivity.
Defined.

(** ** The hourly Series *)

Lemma sorted_strict (s : list (Z * nat)) :
  StronglySorted by_index s -> NoDup (keys s) ->
  StronglySorted (fun x y => (fst x < fst y)%Z) s.
Proof.
  induction 1 as [|a l Hl IH Ha]; simpl; intro Hnd; [constructor|].
  inversion Hnd; subst. constructor; [auto|].
  rewrite Forall_forall in *. intros y Hy.
  specialize (Ha y Hy). unfold by_index in Ha.
  assert (fst a <> fst y).
  { intro E. apply H1. rewrite E. unfold keys. now apply in_map. }
  lia.
Qed.

Lemma hour_counts_strict hours :
  StronglySorted (fun x y => (fst x < fst y)%Z) (hour_counts hours).
Proof.
  apply sorted_strict; [apply hour_counts_sorted|apply hour_counts_NoDup].
Qed.

Lemma hour_counts_positive hours :
  Forall (fun e => 0 < snd e) (hour_counts hours).
Proof.
  apply Forall_forall. intros [h c] H.
  apply hour_counts_spec in H. simpl. tauto.
Qed.

(** X4.  When the hour column is derived, the hourly Series lists its
    hours in strictly ascending order, every listed hour has a positive
    count, and the counts add up to the number of rows of the table
    (the value the summary reports as total). *)
Theorem X4_hour_counts_invariants : forall (rs : list row) (hours : list Z),
  hour_column rs = inr hours ->
  StronglySorted (fun x y => (fst x < fst y)%Z) (hour_counts hours) /\
  Forall (fun e => 0 < snd e) (hour_counts hours) /\
  series_sum (hour_counts hours) = length rs.
Proof.
  intros rs hours H. split; [apply hour_counts_strict|].
  split; [apply hour_counts_positive|].
  rewrite hour_counts_sum. now apply hour_column_length.
Qed.

Lemma X4_hour_counts_invariants_witness :
  StronglySorted (fun x y => (fst x < fst y)%Z)
                 (hour_counts [13; 5; 13; 22]%Z) /\
  Forall (fun e => 0 < snd e) (hour_counts [13; 5; 13; 22]%Z) /\
  series_sum (hour_counts [13; 5; 13; 22]%Z) = 4.
Proof.
  apply (X4_hour_counts_invariants
           [mkRow (Some "1300") None None; mkRow (Some "0559") None None;
            mkRow (Some "1345") None None; mkRow (Some "2210") None None]).
  reflexivity.
Defined.

Lemma strict_sorted_unique (l1 l2 : list (Z * nat)) :
  StronglySorted (fun x y => (fst x < fst y)%Z) l1 ->
  StronglySorted (fun x y => (fst x < fst y)%Z) l2 ->
  (forall x, In x l1 <-> In x l2) ->
  l1 = l2.
Proof.
  intro S1. revert l2.
  induction S1 as [|a t1 St1 IH Ha]; intros l2 S2 Heq.
  - destruct l2 as [|b t2]; [reflexivity|].
    exfalso. apply (Heq b). now left.
  - destruct l2 as [|b t2]; [exfalso; apply (Heq a); now left|].
    inversion S2 as [|b' t2' St2 Hb]; subst.
    rewrite Forall_forall in Ha, Hb.
    assert (Eab : a = b).
    { destruct (proj1 (Heq a) (or_introl eq_refl)) as [E|Hin]; [auto|].
      destruct (proj2 (Heq b) (or_introl eq_refl)) as [E|Hin']; [auto|].
      specialize (Ha _ Hin'). specialize (Hb _ Hin). lia. }
    subst b. f_equal. apply IH; [exact St2|].
    intro x. split; intro Hx.
    + destruct (proj1 (Heq x) (or_intror Hx)) as [E|Hin]; [|exact Hin].
      subst x. specialize (Ha _ Hx). lia.
    + destruct (proj2 (Heq x) (or_intror Hx)) as [E|Hin]; [|exact Hin].
      subst x. specialize (Hb _ Hx). lia.
Qed.

Lemma hour_counts_perm hours hours' :
  Permutation hours hours' -> hour_counts hours = hour_counts hours'.
Proof.
  intro P. apply strict_sorted_unique; try apply hour_counts_strict.
  intros [h c]. rewrite !hour_counts_spec.
  rewrite (proj1 (Permutation_count_occ Z.eq_dec hours hours') P h).
  tauto.
Qed.

Lemma traverse_perm {A B : Type} (f : A -> result B) (l l' : list A) :
  Permutation l l' ->
  match traverse f l, traverse f l' with
  | inr ys, inr ys' => Permutation ys ys'
  | inl _, inl _ => True
  | _, _ => False
  end.
Proof.
  induction 1 as [|x l l' P IH|x y l|l l' l'' P1 IH1 P2 IH2]; simpl.
  - constructor.
  - destruct (f x); simpl; [exact I|].
    destruct (traverse f l), (traverse f l'); simpl; auto.
  - destruct (f x), (f y); simpl; try exact I.
    destruct (traverse f l); simpl; [exact I|]. apply perm_swap.
  - destruct (traverse f l), (traverse f l'), (traverse f l'');
      try tauto. eapply perm_trans; eauto.
Qed.

(** X5.  The hourly task does not depend on the order of the rows: two
    tables with the same rows in a different order give the same hourly
    Series and the same peak hour, or fail alike. *)
Theorem X5_hourly_task_ignores_row_order : forall rs rs' : list row,
  Permutation rs rs' ->
  fst (task1 (read_csv rs)) = fst (task1 (read_csv rs')).
Proof.
  intros rs rs' P. rewrite !task1_unfold. simpl.
  pose proof (traverse_perm hour_of _ _ (Permutation_map TIME_OCC P)) as T.
  rewrite <- !hour_column_traverse in T.
  destruct (hour_column rs) as [e|hours] eqn:E,
           (hour_column rs') as [e'|hours'] eqn:E'; try contradiction.
  - simpl. rewrite (hour_column_error _ _ E), (hour_column_error _ _ E').
    reflexivity.
  - simpl. unfold peak_crime_hour.
    rewrite (hour_counts_perm _ _ T). reflexivity.
Qed.

Lemma X5_hourly_task_ignores_row_order_witness :
  fst (task1 (read_csv [mkRow (Some "0900") None None;
                        mkRow (Some "0200") None None;
                        mkRow (Some "0230") None None]))
  = fst (task1 (read_csv [mkRow (Some "0200") None None;
                          mkRow (Some "0230") None None;
                          mkRow (Some "0900") None None])).
Proof.
  apply X5_hourly_task_ignores_row_order.
  apply Permutation_cons_append.
Defined.

Lemma fold_left_max_eq (vs : list nat) : forall init c,
  init <= c -> Forall (fun v => v <= c) vs -> init = c \/ In c vs ->
  fold_left Nat.max vs init = c.
Proof.
  induction vs as [|v t IH]; intros init c Hi Hall Hin; simpl.
  - destruct Hin as [E|[]]; exact E.
  - inversion Hall; subst. apply IH; auto; [lia|].
    destruct Hin as [E|[E|Hin]]; [left; lia|left; lia|now right].
Qed.

Lemma series_max_eq {K : Type} (s : list (K * nat)) k c :
  In (k, c) s -> (forall k' c', In (k', c') s -> c' <= c) ->
  series_max s = Some c.
Proof.
  destruct s as [|[k0 c0] t]; [contradiction|]. intros Hin Hmax.
  unfold series_max. f_equal. simpl snd.
  apply fold_left_max_eq.
  - apply (Hmax k0). now left.
  - apply Forall_forall. intros v Hv. apply in_map_iff in Hv.
    destruct Hv as ([k' c'] & E & Hv). simpl in E; subst c'.
    apply (Hmax k'). now right.
  - destruct Hin as [E|Hin]; [left; congruence|right].
    apply in_map_iff. exists (k, c). auto.
Qed.

Lemma peak_crime_hour_ok hours h :
  peak_crime_hour hours = inr h ->
  In (h, count_occ Z.eq_dec hours h) (hour_counts hours) /\
  (forall h' c', In (h', c') (hour_counts hours) ->
                 c' <= count_occ Z.eq_dec hours h) /\
  0 < count_occ Z.eq_dec hours h.
Proof.
  intro P.
  assert (Hne : hours <> []) by (intro E; subst; discriminate).
  destruct (peak_crime_hour_spec hours Hne) as (h0 & c & P0 & Hin & Hmax).
  rewrite P in P0. inversion P0; subst h0.
  pose proof (proj1 (hour_counts_spec _ _ _) Hin) as [Hpos Hc].
  subst c. repeat split; auto. intros h' c' H'. apply (Hmax _ _ H').
Qed.

(** X6.  The count the script shows for the peak hour,
    [hour_counts[peak_crime_hour]], is always found (no [KeyError]); it
    equals [hour_counts.max()], it is the number of records of that
    hour and it is positive. *)
Theorem X6_peak_hour_count_is_the_maximum : forall (hours : list Z) (h : Z),
  peak_crime_hour hours = inr h ->
  series_getitem Z.eq_dec h (hour_counts hours)
  = inr (count_occ Z.eq_dec hours h) /\
  series_max (hour_counts hours) = Some (count_occ Z.eq_dec hours h) /\
  0 < count_occ Z.eq_dec hours h.
Proof.
  intros hours h P.
  destruct (peak_crime_hour_ok hours h P) as (Hin & Hmax & Hpos).
  split; [|split; [|exact Hpos]].
  - unfold series_getitem.
    rewrite (In_lookup Z.eq_dec _ _ _ (hour_counts_NoDup hours) Hin).
    reflexivity.
  - eapply series_max_eq; eauto.
Qed.

Lemma X6_peak_hour_count_is_the_maximum_witness :
  series_getitem Z.eq_dec 5%Z (hour_counts [5; 13; 5; 22; 13; 5]%Z)
  = inr (count_occ Z.eq_dec [5; 13; 5; 22; 13; 5]%Z 5%Z) /\
  series_max (hour_counts [5; 13; 5; 22; 13; 5]%Z)
  = Some (count_occ Z.eq_dec [5; 13; 5; 22; 13; 5]%Z 5%Z) /\
  0 < count_occ Z.eq_dec [5; 13; 5; 22; 13; 5]%Z 5%Z.
Proof.
  apply (X6_peak_hour_count_is_the_maximum [5; 13; 5; 22; 13; 5]%Z 5%Z).
  reflexivity.
Defined.

(** ** The bar that line 52 turns red *)

Lemma nth_lower_bound (l : list Z) : forall b i y,
  StronglySorted Z.lt l -> Forall (fun x => (b <= x)%Z) l ->
  nth_error l i = Some y -> (b + Z.of_nat i <= y)%Z.
Proof.
  induction l as [|x t IH]; intros b i y S F H.
  - destruct i; discriminate.
  - apply StronglySorted_inv in S. destruct S as [St Sx].
    pose proof (Forall_inv F) as Fx. cbv beta in Fx.
    destruct i as [|j]; simpl in H.
    + inversion H; subst. lia.
    + assert (F' : Forall (fun z => (x + 1 <= z)%Z) t).
      { eapply Forall_impl; [|exact Sx]. simpl; intros; lia. }
      pose proof (IH (x + 1)%Z j y St F' H). lia.
Qed.

Lemma nth_exact_all_present (l : list Z) : forall b i,
  StronglySorted Z.lt l -> Forall (fun x => (b <= x)%Z) l ->
  nth_error l i = Some (b + Z.of_nat i)%Z ->
  forall k, (b <= k <= b + Z.of_nat i)%Z -> In k l.
Proof.
  induction l as [|x t IH]; intros b i S F H k Hk.
  - destruct i; discriminate.
  - apply StronglySorted_inv in S. destruct S as [St Sx].
    pose proof (Forall_inv F) as Fx. cbv beta in Fx.
    assert (F' : Forall (fun z => (x + 1 <= z)%Z) t).
    { eapply Forall_impl; [|exact Sx]. simpl; intros; lia. }
    destruct i as [|j]; simpl in H.
    + inversion H; subst. left. lia.
    + pose proof (nth_lower_bound t (x + 1)%Z j _ St F' H) as L.
      assert (x = b) by lia. subst x.
      destruct (Z.eq_dec k b) as [E|N]; [left; now subst|right].
      apply (IH (b + 1)%Z j St F'); [|lia].
      rewrite H. f_equal. lia.
Qed.

Lemma all_present_nth (l : list Z) : forall b h,
  StronglySorted Z.lt l -> Forall (fun x => (b <= x)%Z) l ->
  (b <= h)%Z -> (forall k, (b <= k <= h)%Z -> In k l) ->
  nth_error l (Z.to_nat (h - b)) = Some h.
Proof.
  induction l as [|x t IH]; intros b h S F Hb Hall.
  - destruct (Hall b ltac:(lia)).
  - apply StronglySorted_inv in S. destruct S as [St Sx].
    pose proof (Forall_inv F) as Fx. cbv beta in Fx.
    rewrite Forall_forall in Sx.
    assert (x = b).
    { destruct (Hall b ltac:(lia)) as [E|Hin]; [exact E|].
      specialize (Sx _ Hin). lia. }
    subst x.
    destruct (Z.eq_dec h b) as [E|N].
    + subst h. rewrite Z.sub_diag. reflexivity.
    + replace (Z.to_nat (h - b)) with (S (Z.to_nat (h - (b + 1)))) by lia.
      simpl. apply IH; auto; [|lia|].
      * apply Forall_forall. intros z Hz. specialize (Sx _ Hz). lia.
      * intros k Hk. destruct (Hall k ltac:(lia)) as [E|Hin]; [lia|auto].
Qed.

Lemma keys_strict (s : list (Z * nat)) :
  StronglySorted (fun x y => (fst x < fst y)%Z) s ->
  StronglySorted Z.lt (keys s).
Proof.
  induction 1 as [|a l Hl IH Ha]; simpl; constructor; auto.
  unfold keys. rewrite Forall_map. exact Ha.
Qed.

Lemma hour_counts_keys hours k :
  In k (keys (hour_counts hours)) <-> In k hours.
Proof.
  unfold keys. rewrite in_map_iff. split.
  - intros ([k' c] & E & H). simpl in E; subst k'.
    apply hour_counts_spec in H. destruct H as [Hpos Hc].
    apply (count_occ_In Z.eq_dec). lia.
  - intro H. exists (k, count_occ Z.eq_dec hours k). split; [reflexivity|].
    apply hour_counts_spec. split; [|reflexivity].
    now apply (count_occ_In Z.eq_dec).
Qed.

Lemma combine_keys_values {K : Type} (s : list (K * nat)) :
  combine (keys s) (map snd s) = s.
Proof.
  induction s as [|[k c] t IH]; simpl; [reflexivity|]. now rewrite IH.
Qed.

Lemma plt_bar_length (s : list (Z * nat)) c :
  length (plt_bar (keys s) (map snd s) c) = length s.
Proof. unfold plt_bar. now rewrite combine_keys_values, length_map. Qed.

Lemma set_facecolor_highlight (s : list (Z * nat)) : forall i h c col,
  NoDup (keys s) -> nth_error s i = Some (h, c) ->
  set_facecolor i "red" (plt_bar (keys s) (map snd s) col)
  = map (fun e => mkBar (fst e) (snd e)
                        (if (fst e =? h)%Z then "red" else col)) s.
Proof.
  unfold plt_bar. rewrite combine_keys_values.
  induction s as [|[k v] t IH]; intros i h c col Hnd Hn.
  - destruct i; discriminate.
  - inversion Hnd; subst. destruct i as [|j]; simpl in Hn.
    + inversion Hn; subst. simpl. rewrite Z.eqb_refl. f_equal.
      apply map_ext_in. intros [k' v'] Hin. simpl.
      destruct (Z.eqb_spec k' h) as [E|N]; [|reflexivity].
      subst. exfalso. apply H1. unfold keys.
      change h with (fst (h, v')). now apply in_map.
    + simpl. destruct (Z.eqb_spec k h) as [E|N].
      * subst. exfalso. apply H1. apply nth_error_In in Hn.
        unfold keys. change h with (fst (h, c)). now apply in_map.
      * f_equal. eapply IH; eauto.
Qed.

Lemma set_facecolor_nth (bars : list bar) : forall i c b,
  nth_error bars i = Some b ->
  nth_error (set_facecolor i c bars) i
  = Some (mkBar (bar_pos b) (bar_len b) c).
Proof.
  induction bars as [|b0 t IH]; intros i c b H.
  - destruct i; discriminate.
  - destruct i as [|j]; simpl in *; [inversion H; now subst|auto].
Qed.

Lemma tuple_index_nonneg n h :
  (0 <= h)%Z ->
  tuple_index n h
  = if (h <? Z.of_nat n)%Z then Some (Z.to_nat h) else None.
Proof.
  intro H. unfold tuple_index.
  destruct (Z.leb_spec 0 h); [reflexivity|lia].
Qed.

(** X7.  Hours being non-negative, the hourly chart comes out with the
    bar of the peak hour, and only that bar, in red exactly when every
    hour from 0 up to the peak occurs in the table.  With an hour below
    the peak missing, [bars[peak_crime_hour]] is the bar of a later
    hour or raises [IndexError]. *)
Theorem X7_red_bar_is_the_peak_hour : forall (hours : list Z) (h : Z),
  peak_crime_hour hours = inr h ->
  Forall (fun x => (0 <= x)%Z) hours ->
  ((forall k, (0 <= k < h)%Z -> In k hours)
   <->
   plot_peak_crime_hour (hour_counts hours) h
   = inr (map (fun e => mkBar (fst e) (snd e)
                              (if (fst e =? h)%Z then "red" else "skyblue"))
              (hour_counts hours),
          count_occ Z.eq_dec hours h)).
Proof.
  intros hours h P Hnn.
  destruct (peak_crime_hour_ok hours h P) as (Hin & _ & Hpos).
  assert (Hh : In h hours) by (apply (count_occ_In Z.eq_dec); lia).
  assert (H0 : (0 <= h)%Z)
    by (rewrite Forall_forall in Hnn; apply Hnn, Hh).
  assert (Ks : StronglySorted Z.lt (keys (hour_counts hours)))
    by (apply keys_strict, hour_counts_strict).
  assert (Kn : Forall (fun x => (0 <= x)%Z) (keys (hour_counts hours))).
  { apply Forall_forall. intros k Hk. apply (proj1 (hour_counts_keys _ _)) in Hk.
    rewrite Forall_forall in Hnn. apply Hnn, Hk. }
  assert (G : series_getitem Z.eq_dec h (hour_counts hours)
              = inr (count_occ Z.eq_dec hours h)).
  { unfold series_getitem.
    now rewrite (In_lookup Z.eq_dec _ _ _ (hour_counts_NoDup hours) Hin). }
  unfold plot_peak_crime_hour.
  rewrite plt_bar_length, (tuple_index_nonneg _ _ H0), G.
  split.
  - intro Hall.
    assert (Hk : nth_error (keys (hour_counts hours)) (Z.to_nat h) = Some h).
    { replace (Z.to_nat h) with (Z.to_nat (h - 0)) by (f_equal; lia).
      apply (all_present_nth _ 0%Z h Ks Kn); [lia|].
      intros k Hk. apply (proj2 (hour_counts_keys _ _)).
      destruct (Z.eq_dec k h); [now subst|apply Hall; lia]. }
    unfold keys in Hk. rewrite nth_error_map in Hk.
    destruct (nth_error (hour_counts hours) (Z.to_nat h)) as [[h' c]|] eqn:N;
      [|discriminate].
    simpl in Hk. inversion Hk; subst h'.
    assert (Hlt : (h <? Z.of_nat (length (hour_counts hours)))%Z = true).
    { apply Z.ltb_lt.
      assert (Z.to_nat h < length (hour_counts hours))
        by (apply nth_error_Some; congruence).
      lia. }
    rewrite Hlt.
    now rewrite (set_facecolor_highlight _ _ h c "skyblue"
                   (hour_counts_NoDup hours) N).
  - destruct (h <? Z.of_nat (length (hour_counts hours)))%Z eqn:Hlt;
      [|discriminate].
    apply Z.ltb_lt in Hlt. intro E. inversion E as [E']. clear E.
    assert (Hi : Z.to_nat h < length (hour_counts hours)) by lia.
    destruct (nth_error (hour_counts hours) (Z.to_nat h)) as [[h' c]|] eqn:N;
      [|apply nth_error_None in N; lia].
    assert (Nb : nth_error (plt_bar (keys (hour_counts hours))
                                    (map snd (hour_counts hours)) "skyblue")
                           (Z.to_nat h)
                 = Some (mkBar h' c "skyblue")).
    { unfold plt_bar. rewrite combine_keys_values, nth_error_map, N.
      reflexivity. }
    pose proof (set_facecolor_nth _ _ "red" _ Nb) as L.
    rewrite E', nth_error_map, N in L. simpl in L.
    assert (h' = h).
    { destruct (Z.eqb_spec h' h); [assumption|discriminate]. }
    subst h'.
    assert (Hk : nth_error (keys (hour_counts hours)) (Z.to_nat h)
                 = Some (0 + Z.of_nat (Z.to_nat h))%Z).
    { unfold keys. rewrite nth_error_map, N. simpl. f_equal. lia. }
    intros k Hk'. apply (proj1 (hour_counts_keys hours k)).
    apply (nth_exact_all_present _ 0%Z (Z.to_nat h) Ks Kn Hk). lia.
Qed.

Lemma X7_red_bar_is_the_peak_hour_witness :
  (forall k, (0 <= k < 1)%Z -> In k [0; 1; 1; 22]%Z)
  <->
  plot_peak_crime_hour (hour_counts [0; 1; 1; 22]%Z) 1%Z
  = inr (map (fun e => mkBar (fst e) (snd e)
                             (if (fst e =? 1)%Z then "red" else "skyblue"))
             (hour_counts [0; 1; 1; 22]%Z),
         count_occ Z.eq_dec [0; 1; 1; 22]%Z 1%Z).
Proof.
  apply (X7_red_bar_is_the_peak_hour [0; 1; 1; 22]%Z 1%Z).
  - reflexivity.
  - repeat constructor; lia.
Defined.

(** ** The night Series and its chart *)

Lemma night_areas_length rs hours :
  length (dropna (map AREA_NAME (night_crimes rs hours)))
  = length (filter (fun rh => in_night_window (snd rh)
                              && match AREA_NAME (fst rh) with
                                 | Some _ => true
                                 | None => false
                                 end)
                   (combine rs hours)).
Proof.
  rewrite night_crimes_filter.
  induction (combine rs hours) as [|[r h] t IH]; simpl; [reflexivity|].
  destruct (in_night_window h); simpl; [|exact IH].
  destruct (AREA_NAME r); simpl; rewrite <- IH; reflexivity.
Qed.

Lemma dropna_length {A : Type} (col : list (option A)) :
  length (dropna col) <= length col.
Proof.
  induction col as [|[a|] t IH]; simpl; lia.
Qed.

(** X8.  The counts of the night Series add up to the number of records
    whose hour is in the night window and whose area name is present;
    a night record without an area name is counted under no area, so
    the sum is at most the number of night records. *)
Theorem X8_night_counts_sum : forall (rs : list row) (hours : list Z),
  series_sum (night_crime_by_area (night_crimes rs hours))
  = length (filter (fun rh => in_night_window (snd rh)
                              && match AREA_NAME (fst rh) with
                                 | Some _ => true
                                 | None => false
                                 end)
                   (combine rs hours)) /\
  series_sum (night_crime_by_area (night_crimes rs hours))
  <= length (night_crimes rs hours).
Proof.
  intros rs hours. unfold night_crime_by_area. rewrite value_counts_sum.
  split; [apply night_areas_length|].
  etransitivity; [apply dropna_length|]. now rewrite length_map.
Qed.

Lemma idxmax_sorted_head {K : Type} (s : list (K * nat)) k :
  StronglySorted by_count_desc s -> idxmax s = inr k ->
  exists c rest,
    s = (k, c) :: rest /\ Forall (fun e => snd e <= c) rest.
Proof.
  intros Hs I.
  assert (Hne : s <> []) by (intro E; subst; discriminate).
  destruct (idxmax_spec s Hne) as (k' & l1 & c & l2 & I' & E & F1 & F2).
  rewrite I in I'. inversion I'; subst k'.
  assert (l1 = []) by (eapply sorted_prefix_nil; [rewrite <- E|]; eauto).
  subst l1. exists c, l2. auto.
Qed.

Lemma colors_others (s : list (string * nat)) p :
  ~ In p (keys s) -> colors s p = repeat "salmon" (length s).
Proof.
  unfold colors. induction s as [|[a c] t IH]; simpl; intro H;
    [reflexivity|].
  destruct (string_dec a p) as [E|N]; [tauto|].
  f_equal. apply IH. tauto.
Qed.

Lemma firstn_incl {A : Type} n (l : list A) x :
  In x (firstn n l) -> In x l.
Proof.
  revert l; induction n as [|m IH]; intros [|y t]; simpl; try tauto.
  intros [E|H]; [now left|right; auto].
Qed.

Lemma firstn_NoDup_keys {K : Type} n (s : list (K * nat)) :
  NoDup (keys s) -> NoDup (keys (firstn n s)).
Proof.
  revert s; induction n as [|m IH]; intros [|x t] H; simpl;
    try constructor.
  - inversion H; subst. intro Hin. apply H2.
    unfold keys in *. apply in_map_iff in Hin.
    destruct Hin as (e & E & Hin). apply in_map_iff. exists e.
    split; [exact E|]. eapply firstn_incl. exact Hin.
  - inversion H; subst. now apply IH.
Qed.

(** X9.  Once the night task has found its peak, the night chart never
    fails: the peak area is the first entry of the ten shown, so
    [peak_idx] is 0 and neither [list.index] nor the label lookup
    raises; the count shown beside it is the largest count of the
    Series; and the first bar is red while all the others are salmon. *)
Theorem X9_night_chart_puts_the_peak_first :
  forall (night : list row) (p : string),
    peak_night_crime_location night = inr p ->
    exists c rest,
      night_crime_by_area night = (p, c) :: rest /\
      Forall (fun e => snd e <= c) rest /\
      colors (top_night_areas (night_crime_by_area night)) p
      = "red" :: repeat "salmon"
                   (length (top_night_areas (night_crime_by_area night)) - 1)
      /\
      plot_peak_night_location (night_crime_by_area night) p
      = inr (plt_barh
               (List.seq 0
                  (length (top_night_areas (night_crime_by_area night))))
               (map snd (top_night_areas (night_crime_by_area night)))
               (colors (top_night_areas (night_crime_by_area night)) p),
             0, c).
Proof.
  intros night p P. unfold peak_night_crime_location in P.
  assert (Hs : StronglySorted by_count_desc (night_crime_by_area night))
    by apply sort_values_desc_sorted.
  destruct (idxmax_sorted_head _ _ Hs P) as (c & rest & E & F).
  pose proof (value_counts_NoDup string_dec
                (dropna (map AREA_NAME night))) as Hnd.
  fold (night_crime_by_area night) in Hnd.
  exists c, rest. split; [exact E|]. split; [exact F|].
  assert (Et : top_night_areas (night_crime_by_area night)
               = (p, c) :: firstn 9 rest)
    by (rewrite E; reflexivity).
  assert (Hn9 : ~ In p (keys (firstn 9 rest))).
  { apply (firstn_NoDup_keys 10) in Hnd. rewrite E in Hnd.
    change (firstn 10 ((p, c) :: rest)) with ((p, c) :: firstn 9 rest)
      in Hnd.
    unfold keys in Hnd. simpl map in Hnd. now inversion Hnd. }
  unfold plot_peak_night_location. rewrite Et.
  remember (firstn 9 rest) as t eqn:Ht. clear Ht.
  change (colors ((p, c) :: t) p)
    with ((if string_dec p p then "red" else "salmon") :: colors t p).
  change (keys ((p, c) :: t)) with (p :: keys t).
  cbn [list_index]. unfold series_getitem. cbn [lookup].
  destruct (string_dec p p) as [_|N]; [|congruence].
  rewrite (colors_others t p Hn9).
  change (length ((p, c) :: t) - 1) with (length t - 0).
  rewrite Nat.sub_0_r. split; reflexivity.
Qed.

Lemma X9_night_chart_puts_the_peak_first_witness :
  exists c rest,
    night_crime_by_area [mkRow None (Some "Central") None;
                         mkRow None (Some "Hollywood") None;
                         mkRow None (Some "Hollywood") None]
    = ("Hollywood", c) :: rest /\
    Forall (fun e => snd e <= c) rest /\
    colors (top_night_areas
              (night_crime_by_area [mkRow None (Some "Central") None;
                                    mkRow None (Some "Hollywood") None;
                                    mkRow None (Some "Hollywood") None]))
           "Hollywood"
    = "red" :: repeat "salmon"
                 (length (top_night_areas
                            (night_crime_by_area
                               [mkRow None (Some "Central") None;
                                mkRow None (Some "Hollywood") None;
                                mkRow None (Some "Hollywood") None])) - 1)
    /\
    plot_peak_night_location
      (night_crime_by_area [mkRow None (Some "Central") None;
                            mkRow None (Some "Hollywood") None;
                            mkRow None (Some "Hollywood") None])
      "Hollywood"
    = inr (plt_barh
             (List.seq 0
                (length (top_night_areas
                           (night_crime_by_area
                              [mkRow None (Some "Central") None;
                               mkRow None (Some "Hollywood") None;
                               mkRow None (Some "Hollywood") None]))))
             (map snd (top_night_areas
                         (night_crime_by_area
                            [mkRow None (Some "Central") None;
                             mkRow None (Some "Hollywood") None;
                             mkRow None (Some "Hollywood") None])))
             (colors (top_night_areas
                        (night_crime_by_area
                           [mkRow None (Some "Central") None;
                            mkRow None (Some "Hollywood") None;
                            mkRow None (Some "Hollywood") None]))
                     "Hollywood"),
           0, c).
Proof.
  apply (X9_night_chart_puts_the_peak_first
           [mkRow None (Some "Central") None;
            mkRow None (Some "Hollywood") None;
            mkRow None (Some "Hollywood") None] "Hollywood").
  reflexivity.
Defined.

Lemma sorted_app_rel {A : Type} (R : A -> A -> Prop) (l1 l2 : list A) :
  StronglySorted R (l1 ++ l2) ->
  forall x y, In x l1 -> In y l2 -> R x y.
Proof.
  induction l1 as [|a t IH]; simpl; intros S x y Hx Hy; [contradiction|].
  apply StronglySorted_inv in S. destruct S as [St Sa].
  destruct Hx as [E|Hx].
  - subst. rewrite Forall_forall in Sa. apply Sa, in_or_app. now right.
  - eapply IH; eauto.
Qed.

(** X10.  The night chart shows the first ten entries of the Series, or
    all of them when there are fewer, and none of the areas left out
    has a larger count than an area shown. *)
Theorem X10_top_night_areas_are_the_largest : forall night : list row,
  length (top_night_areas (night_crime_by_area night))
  = Nat.min 10 (length (night_crime_by_area night)) /\
  night_crime_by_area night
  = top_night_areas (night_crime_by_area night)
    ++ skipn 10 (night_crime_by_area night) /\
  Forall (fun shown =>
            Forall (fun left_out => snd left_out <= snd shown)
                   (skipn 10 (night_crime_by_area night)))
         (top_night_areas (night_crime_by_area night)).
Proof.
  intro night. unfold top_night_areas, head.
  split; [apply length_firstn|].
  split; [symmetry; apply firstn_skipn|].
  assert (Hs : StronglySorted by_count_desc (night_crime_by_area night))
    by apply sort_values_desc_sorted.
  rewrite <- (firstn_skipn 10 (night_crime_by_area night)) in Hs.
  apply Forall_forall. intros x Hx. apply Forall_forall. intros y Hy.
  apply (sorted_app_rel _ _ _ Hs x y Hx Hy).
Qed.

(** ** Percentages *)






(** ** The whole script *)

Lemma idxmax_error {K : Type} (s : list (K * nat)) e :
  idxmax s = inl e -> e = ValueError.
Proof. destruct s; simpl; intro H; inversion H; reflexivity. Qed.

Lemma plot_peak_night_location_runs (night : list row) p :
  peak_night_crime_location night = inr p ->
  exists r, plot_peak_night_location (night_crime_by_area night) p = inr r.
Proof.
  intro P. unfold peak_night_crime_location in P.
  assert (Hs : StronglySorted by_count_desc (night_crime_by_area night))
    by apply sort_values_desc_sorted.
  destruct (idxmax_sorted_head _ _ Hs P) as (c & rest & E & _).
  unfold plot_peak_night_location. rewrite E.
  change (top_night_areas ((p, c) :: rest)) with ((p, c) :: firstn 9 rest).
  remember (firstn 9 rest) as t eqn:Ht. clear Ht.
  change (keys ((p, c) :: t)) with (p :: keys t).
  cbn [list_index]. unfold series_getitem. cbn [lookup].
  destruct (string_dec p p) as [_|N]; [|congruence].
  eexists. reflexivity.
Qed.

(** The script in closed form. *)
Lemma script_closed (rs : list row) :
  script (read_csv rs) =
  match hour_column rs with
  | inl _ => (inl (Raised ValueError), read_csv rs)
  | inr hours =>
      (match peak_crime_hour hours with
       | inl _ => inl (Raised ValueError)
       | inr h =>
           match tuple_index (length (hour_counts hours)) h with
           | None => inl IndexError
           | Some _ =>
               match peak_night_crime_location (night_crimes rs hours) with
               | inl _ => inl (Raised ValueError)
               | inr p => inr (results_summary h p (mkDF rs (Some hours)))
               end
           end
       end,
       mkDF rs (Some hours))
  end.
Proof.
  unfold script, and_then, of_task, of_plot.
  rewrite task1_unfold. cbn [rows read_csv].
  destruct (hour_column rs) as [e|hours] eqn:E.
  - now rewrite (hour_column_error _ _ E).
  - destruct (peak_crime_hour hours) as [e|h] eqn:P.
    + unfold peak_crime_hour in P. now rewrite (idxmax_error _ _ P).
    + cbn [fst snd]. unfold plot_peak_crime_hour.
      rewrite plt_bar_length.
      destruct (tuple_index (length (hour_counts hours)) h) as [i|];
        [|reflexivity].
      destruct (peak_crime_hour_ok hours h P) as (Hin & _ & _).
      unfold series_getitem at 1.
      rewrite (In_lookup Z.eq_dec _ _ _ (hour_counts_NoDup hours) Hin).
      unfold ok. rewrite task2_unfold. cbn [HOUR_OCC rows].
      destruct (peak_night_crime_location (night_crimes rs hours))
        as [e|p] eqn:N.
      * unfold peak_night_crime_location in N.
        now rewrite (idxmax_error _ _ N).
      * cbn [fst snd].
        destruct (plot_peak_night_location_runs _ _ N) as (r & R).
        rewrite R. rewrite task3_unfold. reflexivity.
Qed.

Lemma tuple_index_in_range n i :
  tuple_index n i <> None <-> (- Z.of_nat n <= i < Z.of_nat n)%Z.
Proof.
  unfold tuple_index.
  destruct (Z.leb_spec 0 i).
  - destruct (Z.ltb_spec i (Z.of_nat n)); split; intro; try lia;
      try discriminate; congruence.
  - destruct (Z.leb_spec 0 (Z.of_nat n + i)); split; intro; try lia;
      try discriminate; congruence.
Qed.

Lemma hour_counts_length hours :
  length (hour_counts hours) = length (nodup Z.eq_dec hours).
Proof.
  rewrite <- (length_map fst (hour_counts hours)).
  apply Permutation_length, NoDup_Permutation.
  - apply hour_counts_NoDup.
  - apply NoDup_nodup.
  - intro k. rewrite nodup_In. apply hour_counts_keys.
Qed.

Lemma night_peak_defined (night : list row) :
  (exists p, peak_night_crime_location night = inr p)
  <-> dropna (map AREA_NAME night) <> [].
Proof.
  unfold peak_night_crime_location, night_crime_by_area. split.
  - intros (p & P) E. rewrite E in P. discriminate.
  - intro H. destruct (value_counts_idxmax string_dec _ H) as (p & _ & _ & I & _).
    eauto.
Qed.

(** X12.  Run on a freshly loaded table, the script with its plots
    completes exactly when the hour column can be derived, the peak hour
    is a valid position among the bars, that is, it lies between minus
    the number of distinct hours and that number, and some record of the
    night window has an area name.  It never raises [KeyError]: the
    night task always finds the column the hourly task stored, and the
    label lookups of both charts always succeed. *)
Theorem X12_script_completes_iff : forall rs : list row,
  ((exists summary, fst (script (read_csv rs)) = inr summary)
   <->
   exists hours h,
     hour_column rs = inr hours /\
     peak_crime_hour hours = inr h /\
     (- Z.of_nat (length (nodup Z.eq_dec hours)) <= h
      < Z.of_nat (length (nodup Z.eq_dec hours)))%Z /\
     dropna (map AREA_NAME (night_crimes rs hours)) <> [])
  /\ fst (script (read_csv rs)) <> inl (Raised KeyError).
Proof.
  intro rs. rewrite script_closed. split; [split|].
  - intros (summary & H).
    destruct (hour_column rs) as [e|hours] eqn:E; cbn [fst] in H;
      [discriminate|].
    destruct (peak_crime_hour hours) as [e|h] eqn:P; [discriminate|].
    destruct (tuple_index (length (hour_counts hours)) h) as [i|] eqn:TI;
      [|discriminate].
    destruct (peak_night_crime_location (night_crimes rs hours))
      as [e|p] eqn:N; [discriminate|].
    exists hours, h.
    split; [reflexivity|]. split; [exact P|]. split.
    + rewrite <- hour_counts_length. apply tuple_index_in_range.
      rewrite TI. discriminate.
    + apply night_peak_defined. eauto.
  - intros (hours & h & E & P & R & Hn). rewrite E. cbn [fst]. rewrite P.
    rewrite <- hour_counts_length in R. apply tuple_index_in_range in R.
    destruct (tuple_index (length (hour_counts hours)) h) as [i|];
      [|congruence].
    apply night_peak_defined in Hn. destruct Hn as (p & Hp). rewrite Hp.
    eexists. reflexivity.
  - destruct (hour_column rs) as [e|hours]; cbn [fst]; [discriminate|].
    destruct (peak_crime_hour hours) as [e|h]; [discriminate|].
    destruct (tuple_index (length (hour_counts hours)) h) as [i|];
      [|discriminate].
    destruct (peak_night_crime_location (night_crimes rs hours));
      discriminate.
Qed.

(** X13.  When the script completes, its summary holds the peak hour,
    the peak night area and the number of rows of the table, all rows
    counted whatever their ages or area names; the table then has its
    rows as loaded and the derived hour column, one hour per row. *)
Theorem X13_summary_of_a_completed_run :
  forall (rs : list row) (summary : list (string * value)),
    fst (script (read_csv rs)) = inr summary ->
    exists hours h p,
      hour_column rs = inr hours /\
      peak_crime_hour hours = inr h /\
      peak_night_crime_location (night_crimes rs hours) = inr p /\
      summary = [("Peak Crime Hour", IntValue h);
                 ("Peak Night Crime Location", StrValue p);
                 ("Total Crimes Analyzed", IntValue (Z.of_nat (length rs)))]
      /\
      snd (script (read_csv rs)) = mkDF rs (Some hours) /\
      length hours = length rs.
Proof.
  intros rs summary. rewrite script_closed.
  destruct (hour_column rs) as [e|hours] eqn:E; cbn [fst snd];
    [discriminate|].
  destruct (peak_crime_hour hours) as [e|h] eqn:P; [discriminate|].
  destruct (tuple_index _ h); [|discriminate].
  destruct (peak_night_crime_location _) as [e|p] eqn:N; [discriminate|].
  intro H. inversion H; subst summary.
  exists hours, h, p.
  split; [reflexivity|]. split; [exact P|]. split; [exact N|].
  split; [reflexivity|]. split; [reflexivity|].
  now apply hour_column_length.
Qed.

Lemma X13_summary_of_a_completed_run_witness :
  exists hours h p,
    hour_column [mkRow (Some "0010") (Some "Central") None;
                 mkRow (Some "0130") (Some "Central") (Some 40%Z);
                 mkRow (Some "0145") None (Some 0%Z)] = inr hours /\
    peak_crime_hour hours = inr h /\
    peak_night_crime_location
      (night_crimes [mkRow (Some "0010") (Some "Central") None;
                     mkRow (Some "0130") (Some "Central") (Some 40%Z);
                     mkRow (Some "0145") None (Some 0%Z)] hours) = inr p /\
    [("Peak Crime Hour", IntValue 1);
     ("Peak Night Crime Location", StrValue "Central");
     ("Total Crimes Analyzed", IntValue 3)]
    = [("Peak Crime Hour", IntValue h);
       ("Peak Night Crime Location", StrValue p);
       ("Total Crimes Analyzed",
        IntValue (Z.of_nat (length [mkRow (Some "0010") (Some "Central") None;
                                    mkRow (Some "0130") (Some "Central")
                                          (Some 40%Z);
                                    mkRow (Some "0145") None (Some 0%Z)])))]
    /\
    snd (script (read_csv [mkRow (Some "0010") (Some "Central") None;
                           mkRow (Some "0130") (Some "Central") (Some 40%Z);
                           mkRow (Some "0145") None (Some 0%Z)]))
    = mkDF [mkRow (Some "0010") (Some "Central") None;
            mkRow (Some "0130") (Some "Central") (Some 40%Z);
            mkRow (Some "0145") None (Some 0%Z)] (Some hours) /\
    length hours
    = length [mkRow (Some "0010") (Some "Central") None;
              mkRow (Some "0130") (Some "Central") (Some 40%Z);
              mkRow (Some "0145") None (Some 0%Z)].
Proof.
  apply (X13_summary_of_a_completed_run
           [mkRow (Some "0010") (Some "Central") None;
            mkRow (Some "0130") (Some "Central") (Some 40%Z);
            mkRow (Some "0145") None (Some 0%Z)]).
  reflexivity.
Defined.

(** ** Reordering the records *)

Lemma dropna_perm {A : Type} (col col' : list (option A)) :
  Permutation col col' -> Permutation (dropna col) (dropna col').
Proof.
  unfold dropna. intro P. now apply Permutation_flat_map.
Qed.

Lemma NoDup_keys_NoDup {K : Type} (s : list (K * nat)) :
  NoDup (keys s) -> NoDup s.
Proof. unfold keys. apply NoDup_map_inv. Qed.

(** X14.  Reordering the night records changes neither the areas of the
    night Series nor their counts, so the Series of the reordered
    records is a rearrangement of the original one; the peak area may
    change, but only to an area with the same count, and the arg-max
    fails for both orders or for neither. *)
Theorem X14_night_series_under_reordering : forall night night' : list row,
  Permutation night night' ->
  Permutation (night_crime_by_area night) (night_crime_by_area night') /\
  match peak_night_crime_location night,
        peak_night_crime_location night' with
  | inr p, inr p' =>
      count_occ string_dec (dropna (map AREA_NAME night)) p
      = count_occ string_dec (dropna (map AREA_NAME night')) p'
  | inl _, inl _ => True
  | _, _ => False
  end.
Proof.
  intros night night' P.
  assert (Pa : Permutation (dropna (map AREA_NAME night))
                           (dropna (map AREA_NAME night')))
    by (apply dropna_perm, Permutation_map, P).
  pose proof (proj1 (Permutation_count_occ string_dec _ _) Pa) as Hc.
  split.
  - apply NoDup_Permutation.
    + apply NoDup_keys_NoDup, value_counts_NoDup.
    + apply NoDup_keys_NoDup, value_counts_NoDup.
    + intros [a c]. unfold night_crime_by_area.
      rewrite !value_counts_spec, Hc. tauto.
  - unfold peak_night_crime_location, night_crime_by_area.
    destruct (dropna (map AREA_NAME night)) as [|a t] eqn:E.
    + apply Permutation_nil in Pa. rewrite Pa. exact I.
    + destruct (dropna (map AREA_NAME night')) as [|a' t'] eqn:E'.
      * symmetry in Pa. apply Permutation_nil in Pa. discriminate.
      * destruct (value_counts_idxmax string_dec (a :: t) ltac:(discriminate))
          as (p & _ & _ & I & Hmax & _).
        destruct (value_counts_idxmax string_dec (a' :: t')
                    ltac:(discriminate))
          as (p' & _ & _ & I' & Hmax' & _).
        rewrite I, I'.
        pose proof (Hmax p'). pose proof (Hmax' p).
        rewrite (Hc p), (Hc p') in *. lia.
Qed.

Lemma X14_night_series_under_reordering_witness :
  Permutation
    (night_crime_by_area [mkRow None (Some "Central") None;
                          mkRow None (Some "Hollywood") None])
    (night_crime_by_area [mkRow None (Some "Hollywood") None;
                          mkRow None (Some "Central") None]) /\
  match peak_night_crime_location [mkRow None (Some "Central") None;
                                   mkRow None (Some "Hollywood") None],
        peak_night_crime_location [mkRow None (Some "Hollywood") None;
                                   mkRow None (Some "Central") None] with
  | inr p, inr p' =>
      count_occ string_dec
        (dropna (map AREA_NAME [mkRow None (Some "Central") None;
                                mkRow None (Some "Hollywood") None])) p
      = count_occ string_dec
          (dropna (map AREA_NAME [mkRow None (Some "Hollywood") None;
                                  mkRow None (Some "Central") None])) p'
  | inl _, inl _ => True
  | _, _ => False
  end.
Proof.
  apply (X14_night_series_under_reordering
           [mkRow None (Some "Central") None;
            mkRow None (Some "Hollywood") None]
           [mkRow None (Some "Hollywood") None;
            mkRow None (Some "Central") None]).
  apply perm_swap.
Defined.

(** X15.  The age task does not depend on the order of the rows: two
    tables with the same rows in a different order give the same counts
    and the same percentages. *)
Theorem X15_age_task_ignores_row_order : forall rs rs' : list row,
  Permutation rs rs' ->
  fst (task3 (read_csv rs)) = fst (task3 (read_csv rs')).
Proof.
  intros rs rs' P. rewrite !task3_unfold. cbn [fst rows read_csv].
  assert (E : victim_ages rs = victim_ages rs'); [|now rewrite E].
  rewrite !victim_ages_closed. apply map_ext. intro l. f_equal.
  apply Permutation_count_occ. unfold age_groups, cut.
  apply dropna_perm. now do 2 apply Permutation_map.
Qed.

Lemma X15_age_task_ignores_row_order_witness :
  fst (task3 (read_csv [mkRow None None (Some 10%Z);
                        mkRow None None None;
                        mkRow None None (Some 70%Z)]))
  = fst (task3 (read_csv [mkRow None None None;
                          mkRow None None (Some 10%Z);
                          mkRow None None (Some 70%Z)])).
Proof.
  apply X15_age_task_ignores_row_order.
  apply perm_swap.
Defined.

(** ** Night records, the table after a run, and the brackets *)

(** X16.  When the hour column is derived, the night records are the
    rows whose own time yields an hour in the night window, in the
    order of the table: the mask built from the stored column selects a
    row by that row's time and by nothing else. *)
Theorem X16_night_records_by_their_own_time :
  forall (rs : list row) (hours : list Z),
    hour_column rs = inr hours ->
    night_crimes rs hours
    = filter (fun r => match hour_of (TIME_OCC r) with
                       | inr h => in_night_window h
                       | inl _ => false
                       end) rs.
Proof.
  intros rs hours. rewrite hour_column_traverse, night_crimes_filter.
  revert hours. induction rs as [|r t IH]; intros hours H; simpl in *.
  - reflexivity.
  - destruct (hour_of (TIME_OCC r)) as [e|h]; simpl in H; [discriminate|].
    destruct (traverse hour_of (map TIME_OCC t)) as [e|hs]; simpl in H;
      [discriminate|].
    inversion H; subst hours. simpl.
    destruct (in_night_window h); simpl; rewrite (IH hs eq_refl);
      reflexivity.
Qed.

Lemma X16_night_records_by_their_own_time_witness :
  night_crimes [mkRow (Some "2215") (Some "Central") None;
                mkRow (Some "1200") (Some "Central") None;
                mkRow (Some "0359") (Some "Hollywood") None]
               [22; 12; 3]%Z
  = filter (fun r => match hour_of (TIME_OCC r) with
                     | inr h => in_night_window h
                     | inl _ => false
                     end)
           [mkRow (Some "2215") (Some "Central") None;
            mkRow (Some "1200") (Some "Central") None;
            mkRow (Some "0359") (Some "Hollywood") None].
Proof.
  apply X16_night_records_by_their_own_time. reflexivity.
Defined.


(** X18.  The brackets are mutually exclusive and exhaustive over the
    valid ages: a record with a valid age falls in exactly one of the
    seven brackets, a record with a missing or non-positive age in
    none. *)
Theorem X18_one_bracket_per_valid_age : forall r : row,
  length (filter (fun l => in_bracket l r) age_labels)
  = if invalid_age r then 0 else 1.
Proof.
  intros [t area [a|]]; unfold in_bracket, invalid_age; cbn [Vict_Age];
    [|reflexivity].
  rewrite cut_age_closed.
  assert (C : (a <= 0 \/ 0 < a <= 17 \/ 17 < a <= 25 \/ 25 < a <= 34 \/
               34 < a <= 44 \/ 44 < a <= 54 \/ 54 < a <= 64 \/ 64 < a)%Z)
    by lia.
  destruct C as [C|[C|[C|[C|[C|[C|[C|C]]]]]]]; decide_cmp; reflexivity.
Qed.
